(** * Ingestion and progress tracking of gemini-video-insight

    A shallow embedding of the ingestion pipeline of the web client:
    [services/api.ts] ([ingestFile], [ingestUrl]), the coordinator in
    [App.tsx] ([handleIngest], [handleSelectFromHistory]) and the status
    area of [components/IngestSection.tsx].

    Conventions of the embedding.
    - JavaScript numbers are IEEE doubles.  Byte counts, timestamps
      (milliseconds) and percentages are integers and are modelled in [Z];
      transfer rates and the intermediate quotients are modelled by exact
      rationals [Q], without the rounding of doubles.
    - The browser and the backend are the environment: what the upload
      request, the initiate request and every poll request answer is given
      by a script, and the code is a program in a small monad that threads
      the closure variables, records every effect it performs and may
      throw.
    - TypeScript types are erased at run time; optional fields are
      [option] values and [a || b] is JavaScript's falsy-or. *)

From Stdlib Require Import ZArith QArith Qround List String Ascii Bool Lia.
From Stdlib Require Import DecimalString Lqa.
Import ListNotations.

Local Open Scope string_scope.
Local Open Scope list_scope.
Local Open Scope Z_scope.

(** ** JavaScript values *)

Module JS.

(** A thrown value: an [Error] object with its [message], or anything
    else ([err instanceof Error] is false). *)
Inductive thrown : Type :=
| Error (message : string)
| NonError.

Definition instanceofError (e : thrown) : bool :=
  match e with Error _ => true | NonError => false end.

(** [err.message], read only where [err instanceof Error] holds. *)
Definition messageOf (e : thrown) : string :=
  match e with Error m => m | NonError => "" end.

(** How a call completes. *)
Inductive completion (A : Type) : Type :=
| Returned (a : A)
| Threw (e : thrown).
Arguments Returned {A} a.
Arguments Threw {A} e.

(** [s || d] on an optional string: [undefined] and [''] are falsy. *)
Definition truthy (o : option string) : bool :=
  match o with
  | Some s => negb (s =? "")%string
  | None => false
  end.

Definition orElse (o : option string) (d : string) : string :=
  match o with
  | Some s => if (s =? "")%string then d else s
  | None => d
  end.

(** [n || 0] on an optional number. *)
Definition orZero (o : option Z) : Z :=
  match o with Some n => n | None => 0 end.

Definition orZeroQ (o : option Q) : Q :=
  match o with Some q => q | None => 0%Q end.

(** [Math.round]: the nearest integer, halves towards plus infinity. *)
Definition Math_round (q : Q) : Z := Qfloor (q + (1 # 2)).
Definition Math_ceil (q : Q) : Z := Qceiling q.
Definition Math_floor (q : Q) : Z := Qfloor q.

(** [x % y] on numbers: the remainder of the division truncated towards
    zero. *)
Definition trunc (q : Q) : Z :=
  if Qlt_le_dec q 0 then Qceiling q else Qfloor q.

Definition rem (x y : Q) : Q := (x - y * inject_Z (trunc (x / y)))%Q.

Definition Qltb (a b : Q) : bool := negb (Qle_bool b a).

(** Decimal rendering of an integer, as template literals do. *)
Definition showZ (z : Z) : string := NilZero.string_of_int (Z.to_int z).

Fixpoint zeros (n : nat) : string :=
  match n with O => "" | S n' => String "0" (zeros n') end.

(** [Number.prototype.toFixed(f)]: the integer [n] nearest to
    [x * 10^f] (the larger one on a tie), printed with [f] decimals. *)
Definition toFixed (f : nat) (x : Q) : string :=
  let neg := Qlt_le_dec x 0 in
  let ax := if neg then Qopp x else x in
  let n := Qfloor (ax * inject_Z (10 ^ Z.of_nat f) + (1 # 2)) in
  let ds := NilEmpty.string_of_uint (N.to_uint (Z.to_N n)) in
  let ds := (zeros (S f - String.length ds) ++ ds)%string in
  let k := (String.length ds - f)%nat in
  let body :=
    match f with
    | O => ds
    | _ => (substring 0 k ds ++ "." ++ substring k f ds)%string
    end in
  if neg then ("-" ++ body)%string else body.

End JS.

(** ** The effects of the channels and the program monad *)

Module Api.
Import JS.

(** A parsed response body of [POST /api/ingest]: the fields of
    [IngestResponse] (and [detail] of [IngestError]); the interfaces are
    erased at run time, so every field may be absent. *)
Record IngestResponse : Type := {
  file_name : option string;
  status : option string;
  upload_id : option string;
  display_name : option string;
  detail : option string
}.

Record UploadProgressInfo : Type := {
  progress : Z;
  loaded : Z;
  total : Z;
  speed : Q;
  message : string
}.

(** The [File] handed to [ingestFile]. *)
Record File : Type := {
  name : string;
  size : Z
}.

(** What a channel does to the outside world, in program order. *)
Inductive Effect : Type :=
| OnProgress (info : UploadProgressInfo)
| XhrSend (file : File)
| FetchIngest (url : string)
| FetchProgress (id : string)
| Delay (ms : Z)
| ConsoleWarn (err : thrown)
| ConsoleError (err : thrown).

(** A program over closure variables [V]: from the variables to the
    effects performed, the variables left behind and the completion. *)
Definition Prog (V A : Type) : Type :=
  V -> list Effect * V * completion A.

Definition ret {V A} (a : A) : Prog V A :=
  fun v => ([], v, Returned a).

Definition bind {V A B} (m : Prog V A) (k : A -> Prog V B) : Prog V B :=
  fun v =>
    match m v with
    | (t1, v1, Returned a) =>
        match k a v1 with
        | (t2, v2, c) => (t1 ++ t2, v2, c)
        end
    | (t1, v1, Threw e) => (t1, v1, Threw e)
    end.

Definition throw {V A} (e : thrown) : Prog V A :=
  fun v => ([], v, Threw e).

(** [try { m } catch (err) { h err }]; assignments made before the throw
    stay. *)
Definition try_catch {V A} (m : Prog V A) (h : thrown -> Prog V A)
  : Prog V A :=
  fun v =>
    match m v with
    | (t1, v1, Returned a) => (t1, v1, Returned a)
    | (t1, v1, Threw e) =>
        match h e v1 with
        | (t2, v2, c) => (t1 ++ t2, v2, c)
        end
    end.

Definition get {V} : Prog V V := fun v => ([], v, Returned v).
Definition put {V} (v' : V) : Prog V unit := fun _ => ([], v', Returned tt).
Definition modify {V} (f : V -> V) : Prog V unit :=
  fun v => ([], f v, Returned tt).
Definition perform {V} (e : Effect) : Prog V unit :=
  fun v => ([e], v, Returned tt).
Definition when {V} (b : bool) (m : Prog V unit) : Prog V unit :=
  if b then m else ret tt.

(** A block with variables of its own, dropped when it ends. *)
Definition scoped {V W A} (w : W) (m : Prog W A) : Prog V A :=
  fun v => match m w with (t, _, c) => (t, v, c) end.

Fixpoint forEach {V X} (xs : list X) (f : X -> Prog V unit) : Prog V unit :=
  match xs with
  | [] => ret tt
  | x :: xs' => bind (f x) (fun _ => forEach xs' f)
  end.

Definition run {A} (m : Prog unit A) : list Effect * completion A :=
  match m tt with (t, _, c) => (t, c) end.

Declare Scope prog_scope.
Delimit Scope prog_scope with prog.
Notation "x <- m ;; k" := (bind m (fun x => k))
  (at level 61, m at next level, right associativity) : prog_scope.
Notation "m ;; k" := (bind m (fun _ => k))
  (at level 61, right associativity) : prog_scope.
Local Open Scope prog_scope.

(** *** The upload channel: [ingestFile] *)

(** The closure variables of the speed meter. *)
Record UploadVars : Type := {
  lastLoaded : Z;
  lastTime : Z;
  currentSpeed : Q
}.

(** A progress event of [xhr.upload], with the reading of [Date.now()]
    when its handler runs. *)
Record XhrProgressEvent : Type := {
  now : Z;
  lengthComputable : bool;
  ev_loaded : Z;
  ev_total : Z
}.

(** How the request ends: [onload] with a status and a response text
    ([None] when [JSON.parse] throws on it), or [onerror]. *)
Inductive XhrEnd : Type :=
| Load (xhr_status : Z) (responseText : option IngestResponse)
| NetworkFailure.

(** What the browser does with one upload request. *)
Record Xhr : Type := {
  created : Z;
  upload_events : list XhrProgressEvent;
  ending : XhrEnd
}.

Definition smoothingFactor : Q := 3 # 10.

Definition MB : Q := inject_Z (1024 * 1024).

(** The text of the remaining time. *)
Definition etaText (eta : Q) : string :=
  if Qltb eta 60 then
    (" - " ++ showZ (Math_ceil eta) ++ "s remaining")%string
  else if Qltb eta 3600 then
    (" - " ++ showZ (Math_ceil (eta / 60)) ++ "m remaining")%string
  else
    (" - " ++ showZ (Math_floor (eta / 3600)) ++ "h "
       ++ showZ (Math_ceil (rem eta 3600 / 60)) ++ "m remaining")%string.

Definition uploadingText (event : XhrProgressEvent) (currentSpeed : Q)
  : string :=
  let loadedMB := (inject_Z (ev_loaded event) / MB)%Q in
  let totalMB := (inject_Z (ev_total event) / MB)%Q in
  let speedMBps := (currentSpeed / MB)%Q in
  let message :=
    ("Uploading: " ++ toFixed 1 loadedMB ++ "MB / "
       ++ toFixed 1 totalMB ++ "MB")%string in
  if Qltb 0 currentSpeed && (ev_loaded event <? ev_total event) then
    let remaining := ev_total event - ev_loaded event in
    let eta := (inject_Z remaining / currentSpeed)%Q in
    (message ++ " (" ++ toFixed 2 speedMBps ++ " MB/s)"
       ++ etaText eta)%string
  else message.

(** The update of the meter inside [xhr.upload.onprogress]: the speed is
    refreshed only when at least 100ms passed since the retained
    sample. *)
Definition meter (event : XhrProgressEvent) (v : UploadVars) : UploadVars :=
  let timeDiff := (inject_Z (now event - lastTime v) / 1000)%Q in
  let loadedDiff := ev_loaded event - lastLoaded v in
  if Qle_bool (1 # 10) timeDiff then
    let instantSpeed := (inject_Z loadedDiff / timeDiff)%Q in
    {| lastLoaded := ev_loaded event;
       lastTime := now event;
       currentSpeed :=
         if Qeq_bool (currentSpeed v) 0 then instantSpeed
         else (smoothingFactor * instantSpeed
               + (1 - smoothingFactor) * currentSpeed v)%Q |}
  else v.

(** [Math.round((event.loaded / event.total) * 50)].  For a total of 0
    JavaScript computes [NaN] or [Infinity] where the division of [Q]
    gives 0; what is proved about this value is proved for positive
    totals. *)
Definition percentComplete (event : XhrProgressEvent) : Z :=
  Math_round (inject_Z (ev_loaded event) / inject_Z (ev_total event) * 50)%Q.

(** [xhr.upload.onprogress]. *)
Definition onprogress (onProgress : bool) (event : XhrProgressEvent)
  : Prog UploadVars unit :=
  if lengthComputable event && onProgress then
    v <- get ;;
    put (meter event v) ;;
    v <- get ;;
    perform (OnProgress {|
      progress := percentComplete event;
      loaded := ev_loaded event;
      total := ev_total event;
      speed := currentSpeed v;
      message := uploadingText event (currentSpeed v) |})
  else ret tt.

(** [xhr.onload]. *)
Definition onload (file : File) (onProgress : bool) (xhr_status : Z)
    (responseText : option IngestResponse) : Prog UploadVars IngestResponse :=
  if (200 <=? xhr_status) && (xhr_status <? 300) then
    match responseText with
    | Some result =>
        when (onProgress && negb (size file =? 0))
          (perform (OnProgress {|
             progress := 100;
             loaded := size file;
             total := size file;
             speed := 0;
             message := "Upload complete!" |})) ;;
        ret result
    | None => throw (Error "Failed to parse response")
    end
  else
    match responseText with
    | Some err => throw (Error (orElse (detail err) "Upload failed"))
    | None => throw (Error "Upload failed")
    end.

(** [ingestFile(file, onProgress)]; [onProgress] tells whether the
    optional callback was passed. *)
Definition ingestFile (file : File) (onProgress : bool) (xhr : Xhr)
  : list Effect * completion IngestResponse :=
  run (scoped {| lastLoaded := 0; lastTime := created xhr; currentSpeed := 0 |}
    (when (onProgress && negb (size file =? 0))
       (perform (OnProgress {|
          progress := 0;
          loaded := 0;
          total := size file;
          speed := 0;
          message := "Starting upload..." |})) ;;
     perform (XhrSend file) ;;
     forEach (upload_events xhr) (onprogress onProgress) ;;
     match ending xhr with
     | Load xhr_status responseText =>
         onload file onProgress xhr_status responseText
     | NetworkFailure => throw (Error "Network error")
     end)).

(** *** The remote-fetch channel: [ingestUrl] *)

(** A parsed body of [GET /api/progress/{id}] ([progressData]); its
    [progress] is the integer that the backend reports. *)
Record ProgressData : Type := {
  pd_progress : Z;
  pd_loaded : option Z;
  pd_total : option Z;
  pd_speed : option Q;
  pd_message : option string;
  pd_stage : option string;
  pd_file_name : option string;
  pd_display_name : option string
}.

(** [progressData.stage === s]. *)
Definition stageIs (d : ProgressData) (s : string) : bool :=
  match pd_stage d with
  | Some s' => (s' =? s)%string
  | None => false
  end.

(** What the initiate request answers: [fetch] rejects, or a response
    with its [ok] flag and what [response.json()] gives. *)
Inductive InitOutcome : Type :=
| InitRejects (e : thrown)
| InitResponse (ok : bool) (json : thrown + IngestResponse).

(** What one poll request answers. *)
Inductive PollOutcome : Type :=
| PollRejects (e : thrown)
| PollResponse (ok : bool) (json : thrown + ProgressData).

(** The variables of the poll block; [progressData] is declared anew in
    every iteration. *)
Record PollVars : Type := {
  result : IngestResponse;
  lastProgress : Z;
  attempts : nat;
  progressData : option ProgressData
}.

Definition set_progressData (o : option ProgressData) (v : PollVars)
  : PollVars :=
  {| result := result v; lastProgress := lastProgress v;
     attempts := attempts v; progressData := o |}.

Definition set_lastProgress (p : Z) (v : PollVars) : PollVars :=
  {| result := result v; lastProgress := p;
     attempts := attempts v; progressData := progressData v |}.

Definition set_result (r : IngestResponse) (v : PollVars) : PollVars :=
  {| result := r; lastProgress := lastProgress v;
     attempts := attempts v; progressData := progressData v |}.

Definition incr_attempts (v : PollVars) : PollVars :=
  {| result := result v; lastProgress := lastProgress v;
     attempts := S (attempts v); progressData := progressData v |}.

(** The final file info taken over from the progress data. *)
Definition adopt (d : ProgressData) (r : IngestResponse) : IngestResponse :=
  let r1 :=
    if truthy (pd_file_name d) then
      {| file_name := pd_file_name d; status := status r;
         upload_id := upload_id r; display_name := display_name r;
         detail := detail r |}
    else r in
  if truthy (pd_display_name d) then
    {| file_name := file_name r1; status := status r1;
       upload_id := upload_id r1; display_name := pd_display_name d;
       detail := detail r1 |}
  else r1.

(** The template literal [`${result.upload_id}`]. *)
Definition idOf (r : IngestResponse) : string :=
  match upload_id r with
  | Some s => s
  | None => "undefined"
  end.

(** How one iteration of the [while] leaves its [try] statement. *)
Inductive LoopStep : Type := Break | Continue.

Section Polling.

(** The answers of the backend to the poll requests, by the number of
    requests issued before. *)
Variable server : nat -> PollOutcome.

(** The [try] block of one iteration. *)
Definition tryPoll : Prog PollVars LoopStep :=
  v <- get ;;
  perform (FetchProgress (idOf (result v))) ;;
  match server (attempts v) with
  | PollRejects e => throw e
  | PollResponse false _ => ret Continue
  | PollResponse true (inl e) => throw e
  | PollResponse true (inr d) =>
      modify (set_progressData (Some d)) ;;
      when (pd_progress d >? lastProgress v)
        (modify (set_lastProgress (pd_progress d)) ;;
         perform (OnProgress {|
           progress := pd_progress d;
           loaded := orZero (pd_loaded d);
           total := orZero (pd_total d);
           speed := orZeroQ (pd_speed d);
           message := orElse (pd_message d) "Processing..." |})) ;;
      if (pd_progress d >=? 100) || stageIs d "complete" then
        modify (fun v => set_result (adopt d (result v)) v) ;;
        ret Break
      else if stageIs d "error" then
        throw (Error (orElse (pd_message d) "Upload failed"))
      else ret Continue
  end.

(** The [catch] block. *)
Definition catchPoll (err : thrown) : Prog PollVars LoopStep :=
  v <- get ;;
  let errorStage :=
    match progressData v with
    | Some d => stageIs d "error"
    | None => false
    end in
  let otherError :=
    instanceofError err
    && negb (messageOf err =? "Failed to fetch")%string in
  if errorStage || otherError then throw err
  else perform (ConsoleWarn err) ;; ret Continue.

(** The declaration [let progressData = null] and the [try] statement
    of one iteration. *)
Definition pollOnce : Prog PollVars LoopStep :=
  modify (set_progressData None) ;;
  try_catch tryPoll catchPoll.

(** The [while (attempts < maxAttempts)] loop; [attempts] grows by one in
    every iteration that does not leave the loop, so the loop is written
    by recursion on the attempts that remain. *)
Fixpoint pollLoop (remaining : nat) : Prog PollVars unit :=
  match remaining with
  | O => ret tt
  | S remaining' =>
      step <- pollOnce ;;
      match step with
      | Break => ret tt
      | Continue =>
          perform (Delay 2000) ;;
          modify incr_attempts ;;
          pollLoop remaining'
      end
  end.

(** The poll block of [ingestUrl] for an attempt budget [maxAttempts]. *)
Definition pollBlock (maxAttempts : nat) (result0 : IngestResponse)
  : Prog unit IngestResponse :=
  scoped {| result := result0; lastProgress := 5; attempts := 0;
            progressData := None |}
    (pollLoop maxAttempts ;;
     v <- get ;;
     if (maxAttempts <=? attempts v)%nat then
       throw (Error "Upload timeout - video processing took too long")
     else ret (result v)).

(** [ingestUrl] with the attempt budget as a parameter. *)
Definition ingestUrlWithin (maxAttempts : nat) (url : string)
    (onProgress : bool) (init : InitOutcome)
  : list Effect * completion IngestResponse :=
  run
    (when onProgress
       (perform (OnProgress {|
          progress := 5; loaded := 0; total := 0; speed := 0;
          message := "Initiating URL download..." |})) ;;
     perform (FetchIngest url) ;;
     result0 <-
       match init with
       | InitRejects e => throw e
       | InitResponse false json =>
           let err :=
             match json with
             | inr body => body
             | inl _ =>
                 {| file_name := None; status := None; upload_id := None;
                    display_name := None;
                    detail := Some "URL ingestion failed" |}
             end in
           throw (Error (orElse (detail err) "Network response was not ok"))
       | InitResponse true (inl e) => throw e
       | InitResponse true (inr r) => ret r
       end ;;
     result1 <-
       (if truthy (upload_id result0) && onProgress
        then pollBlock maxAttempts result0
        else ret result0) ;;
     when onProgress
       (perform (OnProgress {|
          progress := 100; loaded := 0; total := 0; speed := 0;
          message := "Video processed successfully!" |})) ;;
     ret result1).

End Polling.

Definition maxAttempts : nat := 360.

(** [ingestUrl(url, onProgress)]. *)
Definition ingestUrl (url : string) (onProgress : bool)
    (init : InitOutcome) (server : nat -> PollOutcome)
  : list Effect * completion IngestResponse :=
  ingestUrlWithin server maxAttempts url onProgress init.

End Api.

(** ** The coordinator: [App.tsx] *)

Module App.
Import JS Api.

Inductive UploadStatus : Type := IDLE | UPLOADING | PROCESSING | SUCCESS | ERROR.

Inductive Tab : Type := TabFile | TabUrl.

Inductive Role : Type := user | model.

Record QAHistoryItem : Type := {
  role : Role;
  text : string
}.

(** The state variables of [App] that ingestion reads or writes. *)
Record State : Type := {
  activeTab : Tab;
  file : option File;
  url : string;
  uploadStatus : UploadStatus;
  uploadedFileName : option string;
  originalFileName : option string;
  errorMessage : string;
  uploadProgress : Z;
  uploadMessage : string;
  summaryResult : string;
  qaResult : string;
  qaHistory : list QAHistoryItem;
  showHistory : bool
}.

(** The state setters of [useState]. *)
Definition setUploadStatus (x : UploadStatus) (st : State) : State :=
  {| activeTab := activeTab st; file := file st; url := url st;
     uploadStatus := x; uploadedFileName := uploadedFileName st;
     originalFileName := originalFileName st;
     errorMessage := errorMessage st; uploadProgress := uploadProgress st;
     uploadMessage := uploadMessage st; summaryResult := summaryResult st;
     qaResult := qaResult st; qaHistory := qaHistory st;
     showHistory := showHistory st |}.

Definition setUploadedFileName (x : option string) (st : State) : State :=
  {| activeTab := activeTab st; file := file st; url := url st;
     uploadStatus := uploadStatus st; uploadedFileName := x;
     originalFileName := originalFileName st;
     errorMessage := errorMessage st; uploadProgress := uploadProgress st;
     uploadMessage := uploadMessage st; summaryResult := summaryResult st;
     qaResult := qaResult st; qaHistory := qaHistory st;
     showHistory := showHistory st |}.

Definition setOriginalFileName (x : option string) (st : State) : State :=
  {| activeTab := activeTab st; file := file st; url := url st;
     uploadStatus := uploadStatus st;
     uploadedFileName := uploadedFileName st; originalFileName := x;
     errorMessage := errorMessage st; uploadProgress := uploadProgress st;
     uploadMessage := uploadMessage st; summaryResult := summaryResult st;
     qaResult := qaResult st; qaHistory := qaHistory st;
     showHistory := showHistory st |}.

Definition setErrorMessage (x : string) (st : State) : State :=
  {| activeTab := activeTab st; file := file st; url := url st;
     uploadStatus := uploadStatus st;
     uploadedFileName := uploadedFileName st;
     originalFileName := originalFileName st; errorMessage := x;
     uploadProgress := uploadProgress st;
     uploadMessage := uploadMessage st; summaryResult := summaryResult st;
     qaResult := qaResult st; qaHistory := qaHistory st;
     showHistory := showHistory st |}.

Definition setUploadProgress (x : Z) (st : State) : State :=
  {| activeTab := activeTab st; file := file st; url := url st;
     uploadStatus := uploadStatus st;
     uploadedFileName := uploadedFileName st;
     originalFileName := originalFileName st;
     errorMessage := errorMessage st; uploadProgress := x;
     uploadMessage := uploadMessage st; summaryResult := summaryResult st;
     qaResult := qaResult st; qaHistory := qaHistory st;
     showHistory := showHistory st |}.

Definition setUploadMessage (x : string) (st : State) : State :=
  {| activeTab := activeTab st; file := file st; url := url st;
     uploadStatus := uploadStatus st;
     uploadedFileName := uploadedFileName st;
     originalFileName := originalFileName st;
     errorMessage := errorMessage st; uploadProgress := uploadProgress st;
     uploadMessage := x; summaryResult := summaryResult st;
     qaResult := qaResult st; qaHistory := qaHistory st;
     showHistory := showHistory st |}.

Definition setSummaryResult (x : string) (st : State) : State :=
  {| activeTab := activeTab st; file := file st; url := url st;
     uploadStatus := uploadStatus st;
     uploadedFileName := uploadedFileName st;
     originalFileName := originalFileName st;
     errorMessage := errorMessage st; uploadProgress := uploadProgress st;
     uploadMessage := uploadMessage st; summaryResult := x;
     qaResult := qaResult st; qaHistory := qaHistory st;
     showHistory := showHistory st |}.

Definition setQaResult (x : string) (st : State) : State :=
  {| activeTab := activeTab st; file := file st; url := url st;
     uploadStatus := uploadStatus st;
     uploadedFileName := uploadedFileName st;
     originalFileName := originalFileName st;
     errorMessage := errorMessage st; uploadProgress := uploadProgress st;
     uploadMessage := uploadMessage st; summaryResult := summaryResult st;
     qaResult := x; qaHistory := qaHistory st;
     showHistory := showHistory st |}.

Definition setQaHistory (x : list QAHistoryItem) (st : State) : State :=
  {| activeTab := activeTab st; file := file st; url := url st;
     uploadStatus := uploadStatus st;
     uploadedFileName := uploadedFileName st;
     originalFileName := originalFileName st;
     errorMessage := errorMessage st; uploadProgress := uploadProgress st;
     uploadMessage := uploadMessage st; summaryResult := summaryResult st;
     qaResult := qaResult st; qaHistory := x;
     showHistory := showHistory st |}.

Definition setShowHistory (x : bool) (st : State) : State :=
  {| activeTab := activeTab st; file := file st; url := url st;
     uploadStatus := uploadStatus st;
     uploadedFileName := uploadedFileName st;
     originalFileName := originalFileName st;
     errorMessage := errorMessage st; uploadProgress := uploadProgress st;
     uploadMessage := uploadMessage st; summaryResult := summaryResult st;
     qaResult := qaResult st; qaHistory := qaHistory st;
     showHistory := x |}.

Definition UploadStatus_eqb (a b : UploadStatus) : bool :=
  match a, b with
  | IDLE, IDLE | UPLOADING, UPLOADING | PROCESSING, PROCESSING
  | SUCCESS, SUCCESS | ERROR, ERROR => true
  | _, _ => false
  end.

(** [displayName || fileName]. *)
Definition firstTruthy (a b : option string) : option string :=
  if truthy a then a else b.

Definition handleSelectFromHistory (fileName : string)
    (displayName : option string) (st : State) : State :=
  let st := setUploadedFileName (Some fileName) st in
  let st := setOriginalFileName (firstTruthy displayName (Some fileName)) st in
  let st := setUploadStatus SUCCESS st in
  let st := setShowHistory false st in
  let st := setSummaryResult "" st in
  let st := setQaResult "" st in
  setQaHistory [] st.

(** The callback that [handleIngest] hands to the channels. *)
Definition onProgress (info : UploadProgressInfo) (st : State) : State :=
  let st := setUploadProgress (progress info) st in
  let st := setUploadMessage (message info) st in
  if progress info >=? 40 then setUploadStatus PROCESSING st else st.

(** The callback applied to the progress events of a channel, in the
    order of delivery. *)
Definition deliver (t : list Effect) (st : State) : State :=
  fold_left
    (fun st e => match e with OnProgress info => onProgress info st | _ => st end)
    t st.

(** What the browser and the backend answer during one attempt. *)
Record World : Type := {
  xhr : Xhr;
  init : InitOutcome;
  server : nat -> PollOutcome
}.

(** The end of [handleIngest]: the statements after the [await], or the
    [catch] block. *)
Definition settle (c : completion IngestResponse) (st : State)
  : list Effect * State :=
  match c with
  | Returned response =>
      let st := setUploadedFileName (file_name response) st in
      let st :=
        setOriginalFileName
          (firstTruthy (display_name response) (file_name response)) st in
      let st := setUploadStatus SUCCESS st in
      let st := setUploadProgress 100 st in
      ([], setUploadMessage "Upload complete!" st)
  | Threw error =>
      let st := setUploadStatus ERROR st in
      let st :=
        setErrorMessage
          (if instanceofError error then messageOf error
           else "Unknown error") st in
      ([ConsoleError error], setUploadProgress 0 st)
  end.

Definition handleIngest (w : World) (st : State) : list Effect * State :=
  let st := setUploadStatus UPLOADING st in
  let st := setErrorMessage "" st in
  let st := setSummaryResult "" st in
  let st := setQaResult "" st in
  let st := setQaHistory [] st in
  let st := setUploadProgress 0 st in
  let st := setUploadMessage "" st in
  match activeTab st with
  | TabFile =>
      match file st with
      | None => ([], st)
      | Some f =>
          let (t, c) := ingestFile f true (xhr w) in
          let (t', st') := settle c (deliver t st) in
          (t ++ t', st')
      end
  | TabUrl =>
      if (url st =? "")%string then ([], st)
      else
        let st := setUploadStatus PROCESSING st in
        let (t, c) := ingestUrl (url st) true (init w) (server w) in
        let (t', st') := settle c (deliver t st) in
        (t ++ t', st')
  end.

End App.

(** ** The status area: [components/IngestSection.tsx] *)

Module IngestSection.
Import JS App.

(** The text of the error banner, if the banner is rendered;
    [errorIngest] is the translated fallback [t.errorIngest]. *)
Definition errorBanner (errorIngest : string) (st : State) : option string :=
  if UploadStatus_eqb (uploadStatus st) ERROR then
    Some (orElse (Some (errorMessage st)) errorIngest)
  else None.

(** The progress bar, if rendered: its caption and its percentage. *)
Definition progressBar (uploading ingesting : string) (st : State)
  : option (string * Z) :=
  if UploadStatus_eqb (uploadStatus st) UPLOADING
     || UploadStatus_eqb (uploadStatus st) PROCESSING then
    Some (orElse (Some (uploadMessage st))
            (if UploadStatus_eqb (uploadStatus st) UPLOADING
             then uploading else ingesting),
          uploadProgress st)
  else None.

End IngestSection.

(** ** Observations on the effects of a channel *)

Module Trace.
Import JS Api.

(** The progress events delivered to the callback, in order. *)
Fixpoint events (t : list Effect) : list UploadProgressInfo :=
  match t with
  | [] => []
  | OnProgress info :: t' => info :: events t'
  | _ :: t' => events t'
  end.

(** Their percent values. *)
Definition percents (t : list Effect) : list Z := map progress (events t).

(** The number of poll requests issued. *)
Fixpoint polls (t : list Effect) : nat :=
  match t with
  | [] => O
  | FetchProgress _ :: t' => S (polls t')
  | _ :: t' => polls t'
  end.

(** The number of ingestion requests started (upload or initiate). *)
Fixpoint ingestRequests (t : list Effect) : nat :=
  match t with
  | [] => O
  | XhrSend _ :: t' => S (ingestRequests t')
  | FetchIngest _ :: t' => S (ingestRequests t')
  | _ :: t' => ingestRequests t'
  end.

(** A list of integers that never decreases. *)
Fixpoint nondecreasing (l : list Z) : Prop :=
  match l with
  | [] => True
  | x :: l' =>
      match l' with
      | [] => True
      | y :: _ => x <= y /\ nondecreasing l'
      end
  end.

(** A list of integers that increases strictly, above a given value. *)
Fixpoint increasingFrom (low : Z) (l : list Z) : Prop :=
  match l with
  | [] => True
  | x :: l' => low < x /\ increasingFrom x l'
  end.

(** The samples of an upload that reach the callback. *)
Definition sampled (evs : list XhrProgressEvent) : list XhrProgressEvent :=
  filter lengthComputable evs.

(** Whether [ingestFile] delivers its first and its last event:
    [onProgress && file.size]. *)
Definition edgeEvents (file : File) (b : bool) : bool :=
  b && negb (size file =? 0).

End Trace.

(** ** The poll loop, case by case *)

Module Poll.
Import JS Api Trace.

(** The test of the [catch] block on the thrown value alone. *)
Definition otherError (err : thrown) : bool :=
  instanceofError err && negb (messageOf err =? "Failed to fetch")%string.

(** The event forwarded for a poll response. *)
Definition forwarded (d : ProgressData) : UploadProgressInfo :=
  {| progress := pd_progress d;
     loaded := orZero (pd_loaded d);
     total := orZero (pd_total d);
     speed := orZeroQ (pd_speed d);
     message := orElse (pd_message d) "Processing..." |}.

(** The variables after a poll response was looked at. *)
Definition noted (d : ProgressData) (v : PollVars) : PollVars :=
  {| result := result v;
     lastProgress :=
       if pd_progress d >? lastProgress v then pd_progress d
       else lastProgress v;
     attempts := attempts v;
     progressData := Some d |}.

(** The terminal conditions that a poll response may carry. *)
Definition completes (d : ProgressData) : bool :=
  (pd_progress d >=? 100) || stageIs d "complete".

(** What one iteration does, read off the [try] and [catch] blocks. *)
Definition iteration (server : nat -> PollOutcome) (v : PollVars)
  : list Effect * PollVars * completion LoopStep :=
  let fetch := FetchProgress (idOf (result v)) in
  let swallow (e : thrown) :=
    if otherError e then ([fetch], set_progressData None v, Threw e)
    else ([fetch; ConsoleWarn e], set_progressData None v,
          Returned Continue) in
  match server (attempts v) with
  | PollRejects e => swallow e
  | PollResponse false _ =>
      ([fetch], set_progressData None v, Returned Continue)
  | PollResponse true (inl e) => swallow e
  | PollResponse true (inr d) =>
      let t :=
        fetch :: (if pd_progress d >? lastProgress v
                  then [OnProgress (forwarded d)] else []) in
      if completes d then
        (t, set_result (adopt d (result v)) (noted d v), Returned Break)
      else if stageIs d "error" then
        (t, noted d v, Threw (Error (orElse (pd_message d) "Upload failed")))
      else (t, noted d v, Returned Continue)
  end.

(** A poll after which the loop goes on to the next attempt. *)
Definition pending (o : PollOutcome) : bool :=
  match o with
  | PollRejects e => negb (otherError e)
  | PollResponse false _ => true
  | PollResponse true (inl e) => negb (otherError e)
  | PollResponse true (inr d) => negb (completes d) && negb (stageIs d "error")
  end.

(** The variables of the poll block when the loop starts. *)
Definition pollStart (r : IngestResponse) : PollVars :=
  {| result := r; lastProgress := 5; attempts := 0; progressData := None |}.

Definition timeoutMessage : string :=
  "Upload timeout - video processing took too long".

(** The first and the last event of [ingestUrl]. *)
Definition initiating : UploadProgressInfo :=
  {| progress := 5; loaded := 0; total := 0; speed := 0;
     message := "Initiating URL download..." |}.

Definition processed : UploadProgressInfo :=
  {| progress := 100; loaded := 0; total := 0; speed := 0;
     message := "Video processed successfully!" |}.

(** The error that the initiate request ends in, if any. *)
Definition initError (init : InitOutcome) : option thrown :=
  match init with
  | InitRejects e => Some e
  | InitResponse false (inl _) => Some (Error "URL ingestion failed")
  | InitResponse false (inr err) =>
      Some (Error (orElse (detail err) "Network response was not ok"))
  | InitResponse true (inl e) => Some e
  | InitResponse true (inr _) => None
  end.

(** *** What a poll does to the loop *)



End Poll.

(** ** Sample answers of the backend *)

Module Samples.
Import JS Api.

Definition accepted : IngestResponse :=
  {| file_name := Some "files/pending"; status := Some "processing";
     upload_id := Some "job-1"; display_name := None; detail := None |}.

Definition finished : IngestResponse :=
  {| file_name := Some "files/abc"; status := Some "success";
     upload_id := None; display_name := Some "clip.mp4"; detail := None |}.

Definition report (p : Z) (stage message : string) : ProgressData :=
  {| pd_progress := p; pd_loaded := None; pd_total := None;
     pd_speed := None; pd_message := Some message; pd_stage := Some stage;
     pd_file_name := None; pd_display_name := None |}.

Definition answers (d : ProgressData) : PollOutcome :=
  PollResponse true (inr d).

(** A file of 12 MB and an upload of it that the browser reports three
    times. *)
Definition clip : File := {| name := "clip.mp4"; size := 11999000 |}.

Definition threeSamples : Xhr :=
  {| created := 0;
     upload_events :=
       [{| now := 120; lengthComputable := true;
           ev_loaded := 4000000; ev_total := 12000000 |};
        {| now := 150; lengthComputable := true;
           ev_loaded := 5000000; ev_total := 12000000 |};
        {| now := 1260; lengthComputable := true;
           ev_loaded := 12000000; ev_total := 12000000 |}];
     ending := Load 200 (Some finished) |}.

End Samples.

(** ** Attempts of the coordinator *)

Module Attempt.
Import JS Api App Samples.

(** The call of a channel that [handleIngest] makes in a state, if it
    makes one. *)
Definition channelRun (w : World) (st : State)
  : option (list Effect * completion IngestResponse) :=
  match activeTab st with
  | TabFile =>
      match file st with
      | None => None
      | Some f => Some (ingestFile f true (xhr w))
      end
  | TabUrl =>
      if (url st =? "")%string then None
      else Some (ingestUrl (url st) true (init w) (server w))
  end.

(** The state of [App] when it is mounted, with a URL typed in. *)
Definition mounted (u : string) : State :=
  {| activeTab := TabUrl; file := None; url := u;
     uploadStatus := IDLE; uploadedFileName := None;
     originalFileName := Some ""; errorMessage := "";
     uploadProgress := 0; uploadMessage := "";
     summaryResult := ""; qaResult := ""; qaHistory := [];
     showHistory := false |}.

(** A backend that accepts the job and reports its failure on the first
    poll. *)
Definition outOfQuota : World :=
  {| xhr := {| created := 0; upload_events := []; ending := NetworkFailure |};
     init := InitResponse true (inr accepted);
     server := fun _ => answers (report 40 "error" "quota exceeded") |}.

End Attempt.

(** ** Waiting of the poll loop *)

Module Waiting.
Import JS Api.

(** The number of waits between polls. *)
Fixpoint delays (t : list Effect) : nat :=
  match t with
  | [] => O
  | Delay _ :: t' => S (delays t')
  | _ :: t' => delays t'
  end.

(** The time spent waiting, in milliseconds. *)
Fixpoint waited (t : list Effect) : Z :=
  match t with
  | [] => 0
  | Delay ms :: t' => ms + waited t'
  | _ :: t' => waited t'
  end.

(** The job identifiers that were polled, in order. *)
Fixpoint polledIds (t : list Effect) : list string :=
  match t with
  | [] => []
  | FetchProgress id :: t' => id :: polledIds t'
  | _ :: t' => polledIds t'
  end.

End Waiting.

(** ** The end of an upload *)

Module Upload.
Import JS Api.

(** How [ingestFile] completes, read off [xhr.onload] and [xhr.onerror]. *)
Definition uploadOutcome (e : XhrEnd) : completion IngestResponse :=
  match e with
  | NetworkFailure => Threw (Error "Network error")
  | Load xhr_status responseText =>
      if (200 <=? xhr_status) && (xhr_status <? 300) then
        match responseText with
        | Some result => Returned result
        | None => Threw (Error "Failed to parse response")
        end
      else
        match responseText with
        | Some err => Threw (Error (orElse (detail err) "Upload failed"))
        | None => Threw (Error "Upload failed")
        end
  end.

(** The first and the last event of [ingestFile]. *)
Definition starting (file : File) : UploadProgressInfo :=
  {| progress := 0; loaded := 0; total := size file; speed := 0;
     message := "Starting upload..." |}.

Definition uploaded (file : File) : UploadProgressInfo :=
  {| progress := 100; loaded := size file; total := size file; speed := 0;
     message := "Upload complete!" |}.

(** The variables of the meter when the request is created. *)
Definition meterStart (xhr : Xhr) : UploadVars :=
  {| lastLoaded := 0; lastTime := created xhr; currentSpeed := 0 |}.

End Upload.

(** ** The start of an attempt and the ingest button *)

Module Coordinator.
Import JS Api App.

(** The state after the resets that open [handleIngest]. *)
Definition cleared (st : State) : State :=
  setUploadMessage ""
    (setUploadProgress 0
       (setQaHistory []
          (setQaResult ""
             (setSummaryResult ""
                (setErrorMessage "" (setUploadStatus UPLOADING st)))))).

(** The state in which the channel is called. *)
Definition begun (st : State) : State :=
  match activeTab st with
  | TabFile => cleared st
  | TabUrl => setUploadStatus PROCESSING (cleared st)
  end.

(** [components/IngestSection.tsx]: the [disabled] attribute of the
    ingest button. *)
Definition ingestDisabled (isServerOnline : bool) (st : State) : bool :=
  UploadStatus_eqb (uploadStatus st) UPLOADING
  || UploadStatus_eqb (uploadStatus st) PROCESSING
  || match activeTab st, file st with
     | TabFile, None => true
     | _, _ => false
     end
  || match activeTab st with
     | TabUrl => (url st =? "")%string
     | TabFile => false
     end
  || negb isServerOnline.

End Coordinator.

(** ** The registry of ingested files: [listFiles], [deleteFile],
       [renameFile] and the history dialog of [App.tsx] *)

Module UploadedFile.

(** [interface UploadedFile]. *)
Record t : Type := {
  name : string;
  display_name : option string;
  mime_type : option string;
  size_bytes : option Z;
  state : option string;
  create_time : option string;
  expiration_time : option string
}.

(** [{ ...f, display_name: x }]. *)
Definition withDisplayName (x : string) (f : t) : t :=
  {| name := name f; display_name := Some x; mime_type := mime_type f;
     size_bytes := size_bytes f; state := state f;
     create_time := create_time f; expiration_time := expiration_time f |}.

End UploadedFile.

Module Registry.
Import JS Api App.

(** What a request of the registry answers: [fetch] rejects, or a response
    with its [ok] flag and what [response.json()] gives. *)
Inductive Fetched (A : Type) : Type :=
| Rejected (e : thrown)
| Responded (ok : bool) (json : thrown + A).
Arguments Rejected {A} e.
Arguments Responded {A} ok json.

(** What the dialog does to the outside world. *)
Inductive Call : Type :=
| GetFiles
| DeleteFiles (fileName : string)
| PatchFiles (fileName newDisplayName : string)
| LogError (label : string) (e : thrown)
| Alert (text : string).

(** [listFiles]; the body carries the field [files], or lacks it. *)
Definition listFiles (http : Fetched (option (list UploadedFile.t)))
  : list Call * completion (list UploadedFile.t) :=
  ([GetFiles],
   match http with
   | Rejected e => Threw e
   | Responded false _ => Threw (Error "Failed to list files")
   | Responded true (inl e) => Threw e
   | Responded true (inr (Some files)) => Returned files
   | Responded true (inr None) => Returned []
   end).

(** [deleteFile]; the body of the response is not read. *)
Definition deleteFile (fileName : string) (http : Fetched unit)
  : list Call * completion unit :=
  ([DeleteFiles fileName],
   match http with
   | Rejected e => Threw e
   | Responded false _ => Threw (Error "Failed to delete file")
   | Responded true _ => Returned tt
   end).

(** The body of the answer to a rename: the renamed file, or a
    [detail]. *)
Record Renamed : Type := {
  renamed_status : option string;
  renamed_name : option string;
  renamed_display_name : option string;
  renamed_detail : option string
}.

(** [renameFile]. *)
Definition renameFile (fileName newDisplayName : string)
    (http : Fetched Renamed) : list Call * completion Renamed :=
  ([PatchFiles fileName newDisplayName],
   match http with
   | Rejected e => Threw e
   | Responded false json =>
       let error :=
         match json with
         | inr body => renamed_detail body
         | inl _ => Some "Failed to rename file"
         end in
       Threw (Error (orElse error "Failed to rename file"))
   | Responded true (inl e) => Threw e
   | Responded true (inr body) => Returned body
   end).

(** The state variables of the history dialog. *)
Record History : Type := {
  historyFiles : list UploadedFile.t;
  isLoadingHistory : bool;
  editingFileName : option string;
  editingDisplayName : string
}.

Definition setHistoryFiles (x : list UploadedFile.t) (h : History)
  : History :=
  {| historyFiles := x; isLoadingHistory := isLoadingHistory h;
     editingFileName := editingFileName h;
     editingDisplayName := editingDisplayName h |}.

Definition setIsLoadingHistory (x : bool) (h : History) : History :=
  {| historyFiles := historyFiles h; isLoadingHistory := x;
     editingFileName := editingFileName h;
     editingDisplayName := editingDisplayName h |}.

Definition setEditingFileName (x : option string) (h : History) : History :=
  {| historyFiles := historyFiles h; isLoadingHistory := isLoadingHistory h;
     editingFileName := x; editingDisplayName := editingDisplayName h |}.

Definition setEditingDisplayName (x : string) (h : History) : History :=
  {| historyFiles := historyFiles h; isLoadingHistory := isLoadingHistory h;
     editingFileName := editingFileName h; editingDisplayName := x |}.

(** [uploadedFileName === fileName]. *)
Definition isActive (st : State) (fileName : string) : bool :=
  match uploadedFileName st with
  | Some n => (n =? fileName)%string
  | None => false
  end.

Definition loadHistory (http : Fetched (option (list UploadedFile.t)))
    (h : History) : list Call * History :=
  let h := setIsLoadingHistory true h in
  match listFiles http with
  | (t, Returned files) =>
      (t, setIsLoadingHistory false (setHistoryFiles files h))
  | (t, Threw error) =>
      (t ++ [LogError "Failed to load history:" error],
       setIsLoadingHistory false h)
  end.

Definition handleDeleteFile (http : Fetched unit) (fileName : string)
    (p : State * History) : list Call * (State * History) :=
  let (st, h) := p in
  match deleteFile fileName http with
  | (t, Returned _) =>
      let h :=
        setHistoryFiles
          (filter (fun f => negb (UploadedFile.name f =? fileName)%string)
             (historyFiles h)) h in
      if isActive st fileName then
        let st := setUploadedFileName None st in
        let st := setOriginalFileName (Some "") st in
        (t, (setUploadStatus IDLE st, h))
      else (t, (st, h))
  | (t, Threw error) =>
      (t ++ [LogError "Failed to delete file:" error], (st, h))
  end.

Definition handleStartRename (fileName currentDisplayName : string)
    (h : History) : History :=
  setEditingDisplayName currentDisplayName
    (setEditingFileName (Some fileName) h).

Definition handleCancelRename (h : History) : History :=
  setEditingDisplayName "" (setEditingFileName None h).

Section Rename.

(** [String.prototype.trim]. *)
Variable trim : string -> string.

Definition handleSaveRename (http : Fetched Renamed) (fileName : string)
    (p : State * History) : list Call * (State * History) :=
  let (st, h) := p in
  if (trim (editingDisplayName h) =? "")%string then
    ([], (st, handleCancelRename h))
  else
    match renameFile fileName (trim (editingDisplayName h)) http with
    | (t, Returned _) =>
        let h' :=
          setHistoryFiles
            (map (fun f =>
                    if (UploadedFile.name f =? fileName)%string
                    then UploadedFile.withDisplayName
                           (trim (editingDisplayName h)) f
                    else f)
               (historyFiles h)) h in
        let st' :=
          if isActive st fileName
          then setOriginalFileName (Some (trim (editingDisplayName h))) st
          else st in
        (t, (st', handleCancelRename h'))
    | (t, Threw error) =>
        (t ++ [LogError "Failed to rename file:" error;
               Alert ("Failed to rename file: "
                        ++ (if instanceofError error then messageOf error
                            else "Unknown error"))%string],
         (st, h))
    end.

End Rename.

(** A click on a row of the list: the row being renamed does not react,
    any other row is selected under its display name, or under its name
    when it has none. *)
Definition clickRow (f : UploadedFile.t) (p : State * History)
  : State * History :=
  let (st, h) := p in
  match editingFileName h with
  | Some n =>
      if (n =? UploadedFile.name f)%string then (st, h)
      else
        (handleSelectFromHistory (UploadedFile.name f)
           (Some (orElse (UploadedFile.display_name f)
                    (UploadedFile.name f))) st, h)
  | None =>
      (handleSelectFromHistory (UploadedFile.name f)
         (Some (orElse (UploadedFile.display_name f) (UploadedFile.name f)))
         st, h)
  end.

End Registry.

(** ** The analysis of the active asset: [handleGenerateSummary],
       [handleAskQuestion] and [handleClearQAHistory] of [App.tsx] *)

Module Analysis.
Import JS Api App.

Inductive SummaryMode : Type := points | outline | long.

Inductive Language : Type := en | zh.

(** The calls of [services/api.ts] that the analysis makes. *)
Inductive Call : Type :=
| FetchSummary (fileName : string) (mode : SummaryMode) (language : Language)
| FetchQA (fileName question : string) (language : Language)
    (history : list QAHistoryItem).

(** The state variables of the analysis besides those of [State]. *)
Record Desk : Type := {
  language : Language;
  summaryMode : SummaryMode;
  isGeneratingSummary : bool;
  question : string;
  isAsking : bool
}.

Definition setIsGeneratingSummary (x : bool) (d : Desk) : Desk :=
  {| language := language d; summaryMode := summaryMode d;
     isGeneratingSummary := x; question := question d;
     isAsking := isAsking d |}.

Definition setQuestion (x : string) (d : Desk) : Desk :=
  {| language := language d; summaryMode := summaryMode d;
     isGeneratingSummary := isGeneratingSummary d; question := x;
     isAsking := isAsking d |}.

Definition setIsAsking (x : bool) (d : Desk) : Desk :=
  {| language := language d; summaryMode := summaryMode d;
     isGeneratingSummary := isGeneratingSummary d; question := question d;
     isAsking := x |}.

Definition handleClearQAHistory (p : State * Desk) : State * Desk :=
  let (st, d) := p in
  (setQaResult "" (setQaHistory [] st), setQuestion "" d).

Section Handlers.

(** [String.prototype.trim], and [String(error)] for a thrown value that
    is no [Error]. *)
Variable trim : string -> string.
Variable thrownText : string.

(** [error instanceof Error ? error.message : String(error)]. *)
Definition errorMsg (error : thrown) : string :=
  if instanceofError error then messageOf error else thrownText.

(** [handleGenerateSummary]; [answer] is how the awaited [fetchSummary]
    completes, a string by its declared type. *)
Definition handleGenerateSummary (answer : completion string)
    (p : State * Desk) : list Call * (State * Desk) :=
  let (st, d) := p in
  match uploadedFileName st with
  | None => ([], (st, d))
  | Some uploaded =>
      if (uploaded =? "")%string then ([], (st, d))
      else
        let d := setIsGeneratingSummary true d in
        let st := setSummaryResult "" st in
        let call := FetchSummary uploaded (summaryMode d) (language d) in
        match answer with
        | Returned result =>
            ([call], (setSummaryResult result st,
                      setIsGeneratingSummary false d))
        | Threw error =>
            ([call],
             (setSummaryResult ("**Error:** " ++ errorMsg error)%string st,
              setIsGeneratingSummary false d))
        end
  end.

(** [handleAskQuestion]; [answer] is how the awaited [fetchQA]
    completes. *)
Definition handleAskQuestion (answer : completion string)
    (p : State * Desk) : list Call * (State * Desk) :=
  let (st, d) := p in
  match uploadedFileName st with
  | None => ([], (st, d))
  | Some uploaded =>
      if (uploaded =? "")%string || (trim (question d) =? "")%string
      then ([], (st, d))
      else
        let d := setIsAsking true d in
        let currentQuestion := trim (question d) in
        let call :=
          FetchQA uploaded currentQuestion (language d) (qaHistory st) in
        match answer with
        | Returned result =>
            let newHistory :=
              qaHistory st
                ++ [{| role := user; text := currentQuestion |};
                    {| role := model; text := result |}] in
            let st := setQaHistory newHistory st in
            let st := setQaResult result st in
            ([call], (st, setIsAsking false (setQuestion "" d)))
        | Threw error =>
            ([call],
             (setQaResult ("**Error:** " ++ errorMsg error)%string st,
              setIsAsking false d))
        end
  end.

End Handlers.

(** [components/AnalysisDashboard.tsx]: the [disabled] attributes of the
    button that asks and of the button that generates a summary. *)
Definition askDisabled (trim : string -> string) (p : State * Desk) : bool :=
  let (st, d) := p in
  isAsking d || (trim (question d) =? "")%string
  || negb (truthy (uploadedFileName st)).

Definition generateDisabled (p : State * Desk) : bool :=
  let (st, d) := p in
  isGeneratingSummary d || negb (truthy (uploadedFileName st)).

(** A history made of exchanges: a question of the user followed by the
    answer of the model, again and again. *)
Fixpoint exchanges (l : list QAHistoryItem) : Prop :=
  match l with
  | [] => True
  | q :: l1 =>
      match l1 with
      | [] => False
      | a :: l2 => role q = user /\ role a = model /\ exchanges l2
      end
  end.

End Analysis.

(** * Properties *)

Import JS Api App Trace Poll Samples Attempt.
Local Open Scope prog_scope.

(** ** Runs of the embedding *)

Example toFixed_samples :
  toFixed 1 (25 # 2) = "12.5" /\ toFixed 2 (1 # 3) = "0.33" /\
  toFixed 1 0 = "0.0" /\ toFixed 1 (-1 # 25) = "-0.0".
Proof. repeat split. Qed.

Example Math_round_halves :
  Math_round (5 # 2) = 3 /\ Math_round (-5 # 2) = -2.
Proof. split; reflexivity. Qed.

Example etaText_samples :
  etaText (1 # 4) = " - 1s remaining" /\
  etaText 100 = " - 2m remaining" /\
  etaText 4000 = " - 1h 7m remaining".
Proof. repeat split. Qed.

(** The second sample comes 30ms after the first and leaves the speed as
    it is. *)
Example upload_of_threeSamples :
  map (fun i => (progress i, message i))
    (events (fst (ingestFile clip true threeSamples)))
  = [(0, "Starting upload...");
     (17, "Uploading: 3.8MB / 11.4MB (31.79 MB/s) - 1s remaining");
     (21, "Uploading: 4.8MB / 11.4MB (31.79 MB/s) - 1s remaining");
     (50, "Uploading: 11.4MB / 11.4MB");
     (100, "Upload complete!")].
Proof. vm_compute. reflexivity. Qed.

Example poll_until_complete :
  ingestUrl "https://example.org/v.mp4" true
    (InitResponse true (inr accepted))
    (fun k => match k with
              | O => PollRejects (Error "Failed to fetch")
              | 1%nat => answers (report 10 "running" "Downloading")
              | 2%nat => answers (report 10 "running" "Downloading")
              | _ => answers (report 100 "complete" "Done")
              end)
  = ([OnProgress initiating;
      FetchIngest "https://example.org/v.mp4";
      FetchProgress "job-1";
      ConsoleWarn (Error "Failed to fetch");
      Delay 2000;
      FetchProgress "job-1";
      OnProgress (forwarded (report 10 "running" "Downloading"));
      Delay 2000;
      FetchProgress "job-1";
      Delay 2000;
      FetchProgress "job-1";
      OnProgress (forwarded (report 100 "complete" "Done"));
      OnProgress processed],
     Returned accepted).
Proof. vm_compute. reflexivity. Qed.

(** [ingestUrl] runs the loop with the budget of 360 attempts. *)
Lemma ingestUrl_budget (url : string) (b : bool) (init : InitOutcome)
    (server : nat -> PollOutcome) :
  ingestUrl url b init server = ingestUrlWithin server 360 url b init.
Proof. reflexivity. Qed.

(** ** The program monad *)

Lemma events_app (t1 t2 : list Effect) :
  events (t1 ++ t2) = events t1 ++ events t2.
Proof.
  induction t1 as [|e t1 IH]; simpl; [reflexivity|].
  destruct e; simpl; rewrite IH; reflexivity.
Qed.

Lemma percents_app (t1 t2 : list Effect) :
  percents (t1 ++ t2) = percents t1 ++ percents t2.
Proof. unfold percents. rewrite events_app, map_app. reflexivity. Qed.

Lemma polls_app (t1 t2 : list Effect) :
  polls (t1 ++ t2) = (polls t1 + polls t2)%nat.
Proof.
  induction t1 as [|e t1 IH]; simpl; [reflexivity|].
  destruct e; simpl; rewrite IH; reflexivity.
Qed.

Lemma ingestRequests_app (t1 t2 : list Effect) :
  ingestRequests (t1 ++ t2) = (ingestRequests t1 + ingestRequests t2)%nat.
Proof.
  induction t1 as [|e t1 IH]; simpl; [reflexivity|].
  destruct e; simpl; rewrite IH; reflexivity.
Qed.

Lemma bind_returned {V A B} (m : Prog V A) (k : A -> Prog V B) (v : V)
    t1 v1 a t2 v2 c :
  m v = (t1, v1, Returned a) -> k a v1 = (t2, v2, c) ->
  bind m k v = (t1 ++ t2, v2, c).
Proof. intros Hm Hk. unfold bind. rewrite Hm, Hk. reflexivity. Qed.

(** ** The transfer meter *)

Lemma timeDiff_threshold (dt : Z) :
  Qle_bool (1 # 10) (inject_Z dt / 1000) = (100 <=? dt).
Proof.
  destruct (Z.leb_spec 100 dt) as [H|H].
  - apply Qle_bool_iff. unfold Qle, Qdiv, Qmult, inject_Z; simpl. lia.
  - destruct (Qle_bool (1 # 10) (inject_Z dt / 1000)) eqn:E; [|reflexivity].
    apply Qle_bool_iff in E.
    unfold Qle, Qdiv, Qmult, inject_Z in E; simpl in E. lia.
Qed.

(** C6: a sample less than 100ms after the retained one leaves the
    meter unchanged; any other sample becomes the retained one and
    the smoothed rate becomes the instantaneous rate
    [(b1 - b0) / ((t1 - t0) / 1000)] (bytes per second) when the previous
    rate was 0, and [0.3 * instantRate + 0.7 * previousRate] otherwise. *)
Theorem meter_rate (t1 b1 total : Z) (v : UploadVars) :
  let event := {| now := t1; lengthComputable := true;
                  ev_loaded := b1; ev_total := total |} in
  let v' := snd (fst (onprogress true event v)) in
  let instantRate :=
    (inject_Z (b1 - lastLoaded v) / (inject_Z (t1 - lastTime v) / 1000))%Q in
  if t1 - lastTime v <? 100 then v' = v
  else
    lastLoaded v' = b1 /\ lastTime v' = t1 /\
    currentSpeed v' =
      if Qeq_bool (currentSpeed v) 0 then instantRate
      else ((3 # 10) * instantRate + (7 # 10) * currentSpeed v)%Q.
Proof.
  cbv zeta. unfold onprogress, bind, get, put, perform; simpl.
  unfold meter; simpl. rewrite timeDiff_threshold.
  rewrite Z.ltb_antisym.
  destruct (100 <=? t1 - lastTime v); simpl; [|reflexivity].
  repeat split.
Qed.

(** ** The upload channel *)

Lemma percentComplete_div (event : XhrProgressEvent) :
  0 < ev_total event ->
  percentComplete event
  = (100 * ev_loaded event + ev_total event) / (2 * ev_total event).
Proof.
  intros Ht. unfold percentComplete, Math_round.
  destruct (ev_total event) as [|p|p] eqn:E; try lia.
  set (l := ev_loaded event).
  assert (Hq : (inject_Z l / inject_Z (Z.pos p) * 50 + (1 # 2)
                == (100 * l + Z.pos p) # (2 * p))%Q).
  { unfold Qeq, Qdiv, Qmult, Qplus, Qinv, inject_Z;
      cbn -[Z.mul Z.add Pos.mul]. lia. }
  rewrite Hq. unfold Qfloor. reflexivity.
Qed.

Lemma percentComplete_range (event : XhrProgressEvent) :
  0 < ev_total event -> 0 <= ev_loaded event <= ev_total event ->
  0 <= percentComplete event <= 50.
Proof.
  intros Ht Hl. rewrite percentComplete_div by assumption. split.
  - apply Z.div_pos; lia.
  - apply Z.lt_succ_r. apply Z.div_lt_upper_bound; lia.
Qed.

Lemma percentComplete_mono (e1 e2 : XhrProgressEvent) :
  0 < ev_total e1 -> ev_total e2 = ev_total e1 ->
  ev_loaded e1 <= ev_loaded e2 ->
  percentComplete e1 <= percentComplete e2.
Proof.
  intros Ht Heq Hl. rewrite !percentComplete_div by lia. rewrite Heq.
  apply Z.div_le_mono; lia.
Qed.

Lemma onprogress_run (b : bool) (e : XhrProgressEvent) (v : UploadVars) :
  onprogress b e v
  = if lengthComputable e && b then
      ([OnProgress {|
          progress := percentComplete e;
          loaded := ev_loaded e;
          total := ev_total e;
          speed := currentSpeed (meter e v);
          message := uploadingText e (currentSpeed (meter e v)) |}],
       meter e v, Returned tt)
    else ([], v, Returned tt).
Proof.
  unfold onprogress. destruct (lengthComputable e && b); reflexivity.
Qed.

Lemma forEach_onprogress (b : bool) (evs : list XhrProgressEvent)
    (v : UploadVars) :
  exists t v',
    forEach evs (onprogress b) v = (t, v', Returned tt) /\
    polls t = O /\ ingestRequests t = O /\
    percents t = if b then map percentComplete (sampled evs) else [].
Proof.
  revert v. induction evs as [|e evs IH]; intros v.
  - exists [], v. repeat split. destruct b; reflexivity.
  - cbn [forEach sampled filter].
    destruct (lengthComputable e) eqn:El; destruct b.
    + destruct (IH (meter e v)) as (t & v' & Hrun & Hp & Hi & Hpc).
      eexists _, v'. split.
      { eapply bind_returned; [|exact Hrun].
        rewrite onprogress_run, El. reflexivity. }
      cbn [app polls ingestRequests]. repeat split; try assumption.
      unfold percents in *. cbn [events map progress]. rewrite Hpc.
      reflexivity.
    + destruct (IH v) as (t & v' & Hrun & Hp & Hi & Hpc).
      exists t, v'. split; [|auto].
      eapply (bind_returned _ _ _ []); [|exact Hrun].
      rewrite onprogress_run, El. reflexivity.
    + destruct (IH v) as (t & v' & Hrun & Hp & Hi & Hpc).
      exists t, v'. split; [|auto].
      eapply (bind_returned _ _ _ []); [|exact Hrun].
      rewrite onprogress_run, El. reflexivity.
    + destruct (IH v) as (t & v' & Hrun & Hp & Hi & Hpc).
      exists t, v'. split; [|auto].
      eapply (bind_returned _ _ _ []); [|exact Hrun].
      rewrite onprogress_run, El. reflexivity.
Qed.

Lemma onload_run (file : File) (b : bool) (st : Z)
    (txt : option IngestResponse) (v : UploadVars) :
  exists t c,
    onload file b st txt v = (t, v, c) /\
    polls t = O /\ ingestRequests t = O /\
    percents t = match c with
                 | Returned _ => if edgeEvents file b then [100] else []
                 | Threw _ => []
                 end.
Proof.
  unfold onload, edgeEvents.
  destruct ((200 <=? st) && (st <? 300)); destruct txt as [r|];
    destruct (b && negb (size file =? 0));
    eexists _, _; (split; [reflexivity|]); repeat split.
Qed.

(** The effects of [ingestFile]: one request, no poll, and the percent
    values 0 at the start, one value per sample, and 100 after a
    response that is accepted. *)
Lemma ingestFile_run (file : File) (b : bool) (xhr : Xhr) :
  exists t c,
    ingestFile file b xhr = (t, c) /\
    polls t = O /\ ingestRequests t = 1%nat /\
    percents t
    = (if edgeEvents file b then [0] else [])
      ++ (if b then map percentComplete (sampled (upload_events xhr)) else [])
      ++ match c with
         | Returned _ => if edgeEvents file b then [100] else []
         | Threw _ => []
         end.
Proof.
  unfold ingestFile, run, scoped.
  set (v0 := {| lastLoaded := 0; lastTime := created xhr; currentSpeed := 0 |}).
  destruct (forEach_onprogress b (upload_events xhr) v0)
    as (t & v' & Hrun & Hp & Hi & Hpc).
  assert (Hend : exists t2 c,
    match ending xhr with
    | Load xhr_status responseText => onload file b xhr_status responseText
    | NetworkFailure => throw (Error "Network error")
    end v' = (t2, v', c) /\
    polls t2 = O /\ ingestRequests t2 = O /\
    percents t2 = match c with
                  | Returned _ => if edgeEvents file b then [100] else []
                  | Threw _ => []
                  end).
  { destruct (ending xhr) as [st txt|].
    - apply onload_run.
    - eexists _, _. split; [reflexivity|]. repeat split. }
  destruct Hend as (t2 & c & Hend & Hp2 & Hi2 & Hpc2).
  fold (edgeEvents file b).
  destruct (edgeEvents file b) eqn:Eb; cbn [when].
  - erewrite bind_returned;
      [| reflexivity
       | eapply bind_returned;
           [reflexivity | eapply bind_returned; [exact Hrun | exact Hend]]].
    eexists _, _. split; [reflexivity|].
    cbn [app polls ingestRequests].
    rewrite !polls_app, !ingestRequests_app, Hp, Hp2, Hi, Hi2.
    repeat split.
    unfold percents at 1. cbn [events map progress].
    fold (percents (t ++ t2)). rewrite percents_app, Hpc, Hpc2. reflexivity.
  - erewrite bind_returned;
      [| reflexivity
       | eapply bind_returned;
           [reflexivity | eapply bind_returned; [exact Hrun | exact Hend]]].
    eexists _, _. split; [reflexivity|].
    cbn [app polls ingestRequests].
    rewrite !polls_app, !ingestRequests_app, Hp, Hp2, Hi, Hi2.
    repeat split.
    unfold percents at 1. cbn [events map progress].
    fold (percents (t ++ t2)). rewrite percents_app, Hpc, Hpc2. reflexivity.
Qed.

(** ** The poll loop *)

Lemma iteration_run (server : nat -> PollOutcome) (v : PollVars) :
  pollOnce server v = iteration server v.
Proof.
  unfold pollOnce.
  unfold iteration, bind, modify, try_catch, tryPoll, catchPoll, completes.
  unfold bind, get, perform, modify, when, throw, ret.
  cbn [attempts set_progressData result progressData lastProgress].
  destruct (server (attempts v)) as [e|[|] [e|d]]; cbn.
  - destruct e as [m|]; cbn; [destruct (m =? "Failed to fetch")%string|];
      reflexivity.
  - destruct e as [m|]; cbn; [destruct (m =? "Failed to fetch")%string|];
      reflexivity.
  - unfold noted, forwarded.
    destruct (pd_progress d >? lastProgress v) eqn:Ef;
      destruct ((pd_progress d >=? 100) || stageIs d "complete") eqn:Ec;
      destruct (stageIs d "error") eqn:Ee;
      cbn; rewrite ?Ec, ?Ee; reflexivity.
  - reflexivity.
  - reflexivity.
Qed.

(** The loop, one iteration at a time. *)
Lemma pollLoop_S (server : nat -> PollOutcome) (n : nat) (v : PollVars) :
  pollLoop server (S n) v
  = match iteration server v with
    | (t1, v1, Returned Break) => (t1, v1, Returned tt)
    | (t1, v1, Returned Continue) =>
        match pollLoop server n (incr_attempts v1) with
        | (t2, v2, c) => (t1 ++ Delay 2000 :: t2, v2, c)
        end
    | (t1, v1, Threw e) => (t1, v1, Threw e)
    end.
Proof.
  cbn [pollLoop]. unfold bind at 1. rewrite iteration_run.
  destruct (iteration server v) as [[t1 v1] [[|]|e]].
  - cbn. rewrite app_nil_r. reflexivity.
  - unfold bind, perform, modify. cbn.
    destruct (pollLoop server n (incr_attempts v1)) as [[t2 v2] c].
    reflexivity.
  - reflexivity.
Qed.

(** What an iteration leaves in the variables and in the trace. *)
Lemma iteration_facts (server : nat -> PollOutcome) (v : PollVars) :
  match iteration server v with
  | (t, v', c) =>
      polls t = 1%nat /\ ingestRequests t = O /\
      attempts v' = attempts v /\
      lastProgress v <= lastProgress v' /\
      (percents t = [] /\ lastProgress v' = lastProgress v \/
       percents t = [lastProgress v'] /\ lastProgress v < lastProgress v') /\
      (forall d, server (attempts v) = PollResponse true (inr d) ->
         events t = if pd_progress d >? lastProgress v
                     then [forwarded d] else [])
  end.
Proof.
  unfold iteration.
  destruct (server (attempts v)) as [e|[|] [e|d]].
  - destruct (otherError e); cbn; repeat split; try lia;
      try (left; split; reflexivity); intros d [=].
  - destruct (otherError e); cbn; repeat split; try lia;
      try (left; split; reflexivity); intros d [=].
  - assert (Hev : forall d0,
        PollResponse true (inr d) = PollResponse true (inr d0) ->
        events (FetchProgress (idOf (result v))
                  :: (if pd_progress d >? lastProgress v
                      then [OnProgress (forwarded d)] else []))
        = if pd_progress d0 >? lastProgress v then [forwarded d0] else []).
    { intros d0 [= <-]. destruct (pd_progress d >? lastProgress v);
        reflexivity. }
    unfold noted.
    destruct (completes d); [|destruct (stageIs d "error")];
      (destruct (pd_progress d >? lastProgress v) eqn:Ef;
       [apply Z.gtb_gt in Ef
       |rewrite Z.gtb_ltb in Ef; apply Z.ltb_ge in Ef]);
      cbn; repeat split; try lia; try exact Hev;
      try (right; split; [reflexivity|lia]);
      try (left; split; reflexivity).
  - cbn; repeat split; try lia; try (left; split; reflexivity); intros ? [=].
  - cbn; repeat split; try lia; try (left; split; reflexivity); intros ? [=].
Qed.

Lemma iteration_events (server : nat -> PollOutcome) (v : PollVars) :
  events (fst (fst (iteration server v)))
  = match server (attempts v) with
    | PollResponse true (inr d) =>
        if pd_progress d >? lastProgress v then [forwarded d] else []
    | _ => []
    end.
Proof.
  unfold iteration.
  destruct (server (attempts v)) as [e|[|] [e|d]];
    try (destruct (otherError e); reflexivity); try reflexivity.
  destruct (completes d); [|destruct (stageIs d "error")];
    destruct (pd_progress d >? lastProgress v); reflexivity.
Qed.

Lemma iteration_pending (server : nat -> PollOutcome) (v : PollVars) :
  pending (server (attempts v)) = true ->
  exists t v1,
    iteration server v = (t, v1, Returned Continue) /\
    polls t = 1%nat /\ attempts v1 = attempts v /\ result v1 = result v.
Proof.
  unfold iteration, pending.
  destruct (server (attempts v)) as [e|[|] [e|d]]; intros Hp.
  - destruct (otherError e); [discriminate|].
    eexists _, _. repeat split.
  - destruct (otherError e); [discriminate|].
    eexists _, _. repeat split.
  - destruct (completes d); [discriminate|].
    destruct (stageIs d "error"); [discriminate|].
    eexists _, _. repeat split.
    destruct (pd_progress d >? lastProgress v); reflexivity.
  - eexists _, _. repeat split.
  - eexists _, _. repeat split.
Qed.

(** While the polls stay pending the loop goes through them one by one
    and then carries on with what remains of its budget. *)
Lemma pollLoop_pending_prefix (server : nat -> PollOutcome) (k m : nat) :
  forall v,
    (forall j, (j < k)%nat -> pending (server (attempts v + j)%nat) = true) ->
    exists t1 v1,
      polls t1 = k /\ attempts v1 = (attempts v + k)%nat /\
      result v1 = result v /\
      pollLoop server (k + m) v
      = match pollLoop server m v1 with
        | (t2, v2, c) => (t1 ++ t2, v2, c)
        end.
Proof.
  induction k as [|k IH]; intros v Hp.
  - exists [], v. repeat split; try lia.
    cbn [Nat.add app]. destruct (pollLoop server m v) as [[t2 v2] c].
    reflexivity.
  - destruct (iteration_pending server v) as (t & v1 & Hit & Hpt & Ha & Hr).
    { rewrite <- (Nat.add_0_r (attempts v)). apply Hp. lia. }
    destruct (IH (incr_attempts v1)) as (t1 & v2 & Hp1 & Ha1 & Hr1 & Hrun).
    { intros j Hj. cbn [incr_attempts attempts]. rewrite Ha.
      replace (S (attempts v) + j)%nat with (attempts v + S j)%nat by lia.
      apply Hp. lia. }
    exists (t ++ Delay 2000 :: t1), v2.
    cbn [incr_attempts attempts result] in *.
    repeat split.
    + rewrite polls_app. cbn [polls]. lia.
    + lia.
    + congruence.
    + cbn [Nat.add]. rewrite pollLoop_S, Hit, Hrun.
      destruct (pollLoop server m v2) as [[t2 v3] c].
      rewrite <- app_assoc. reflexivity.
Qed.

(** The forwarded percent values increase strictly, starting above the
    last percent value forwarded before. *)
Lemma pollLoop_increasing (server : nat -> PollOutcome) (n : nat) :
  forall v,
    match pollLoop server n v with
    | (t, v', c) =>
        increasingFrom (lastProgress v) (percents t) /\
        ingestRequests t = O /\ (polls t <= n)%nat
    end.
Proof.
  induction n as [|n IH]; intros v.
  - cbn. repeat split; lia.
  - rewrite pollLoop_S.
    pose proof (iteration_facts server v) as Hf.
    destruct (iteration server v) as [[t1 v1] [[|]|e]];
      destruct Hf as (Hp & Hi & Ha & Hle & Hpc & _).
    + repeat split; try lia.
      destruct Hpc as [[-> _]|[-> Hlt]]; cbn; auto.
    + specialize (IH (incr_attempts v1)).
      destruct (pollLoop server n (incr_attempts v1)) as [[t2 v2] c].
      destruct IH as (Hinc & Hi2 & Hp2). cbn [incr_attempts lastProgress] in Hinc.
      rewrite percents_app, polls_app, ingestRequests_app.
      change (percents (Delay 2000 :: t2)) with (percents t2).
      cbn [polls ingestRequests]. repeat split; try lia.
      destruct Hpc as [[-> Heq]|[-> Hlt]]; cbn [app increasingFrom].
      * rewrite <- Heq. exact Hinc.
      * split; assumption.
    + repeat split; try lia.
      destruct Hpc as [[-> _]|[-> Hlt]]; cbn; auto.
Qed.

(** ** [ingestUrl] as a whole *)

Lemma ingestUrlWithin_refused (server : nat -> PollOutcome) (n : nat)
    (url : string) (b : bool) (init : InitOutcome) (e : thrown) :
  initError init = Some e ->
  ingestUrlWithin server n url b init
  = ((if b then [OnProgress initiating] else []) ++ [FetchIngest url],
     Threw e).
Proof.
  unfold ingestUrlWithin, run, initError.
  destruct init as [e0|[|] [e0|r]]; intros [= <-]; destruct b; reflexivity.
Qed.

Lemma ingestUrlWithin_direct (server : nat -> PollOutcome) (n : nat)
    (url : string) (b : bool) (r : IngestResponse) :
  truthy (upload_id r) && b = false ->
  ingestUrlWithin server n url b (InitResponse true (inr r))
  = ((if b then [OnProgress initiating] else []) ++ [FetchIngest url]
       ++ (if b then [OnProgress processed] else []),
     Returned r).
Proof.
  intros H. unfold ingestUrlWithin, run, bind, when, perform, ret.
  cbn. rewrite H. destruct b; reflexivity.
Qed.

Lemma ingestUrlWithin_polling (server : nat -> PollOutcome) (n : nat)
    (url : string) (r : IngestResponse) :
  truthy (upload_id r) = true ->
  ingestUrlWithin server n url true (InitResponse true (inr r))
  = match pollLoop server n (pollStart r) with
    | (t, v, Returned _) =>
        if (n <=? attempts v)%nat then
          (OnProgress initiating :: FetchIngest url :: t,
           Threw (Error timeoutMessage))
        else
          (OnProgress initiating :: FetchIngest url :: t
             ++ [OnProgress processed],
           Returned (result v))
    | (t, v, Threw e) =>
        (OnProgress initiating :: FetchIngest url :: t, Threw e)
    end.
Proof.
  intros H. unfold ingestUrlWithin, run, pollBlock, scoped.
  unfold bind, when, perform, ret, get, throw. cbn. rewrite H. cbn.
  fold (pollStart r).
  destruct (pollLoop server n (pollStart r)) as [[t v] [[]|e]]; cbn.
  - destruct (n <=? attempts v)%nat; cbn; rewrite ?app_nil_r; reflexivity.
  - reflexivity.
Qed.

(** C4: when no poll ever ends the loop (the job never reaches a terminal
    stage), [ingestUrl] with an attempt budget of [n] issues exactly [n]
    poll requests and then fails with the timeout error; [ingestUrl]
    itself is the instance [n = maxAttempts = 360]. *)
Theorem poll_budget_exhausted (server : nat -> PollOutcome) (n : nat)
    (url : string) (r : IngestResponse) :
  truthy (upload_id r) = true ->
  (forall k, (k < n)%nat -> pending (server k) = true) ->
  exists t,
    ingestUrlWithin server n url true (InitResponse true (inr r))
    = (t, Threw (Error timeoutMessage)) /\
    polls t = n.
Proof.
  intros Hid Hpend.
  destruct (pollLoop_pending_prefix server n 0 (pollStart r))
    as (t1 & v1 & Hp & Ha & _ & Hrun).
  { intros j Hj. apply Hpend. exact Hj. }
  rewrite ingestUrlWithin_polling by exact Hid.
  rewrite Nat.add_0_r in Hrun. rewrite Hrun. cbn [pollLoop ret].
  cbn [pollStart attempts] in Ha. rewrite Ha, Nat.add_0_l, Nat.leb_refl.
  eexists. split; [reflexivity|].
  cbn [polls]. rewrite app_nil_r. exact Hp.
Qed.

Lemma poll_budget_exhausted_witness :
  exists t,
    ingestUrlWithin (fun _ => answers (report 10 "running" "Downloading"))
      3 "https://example.org/v.mp4" true (InitResponse true (inr accepted))
    = (t, Threw (Error timeoutMessage)) /\
    polls t = 3%nat.
Proof.
  apply poll_budget_exhausted.
  - reflexivity.
  - intros k _. reflexivity.
Defined.

Lemma stageIs_error_not_complete (d : ProgressData) :
  stageIs d "error" = true -> stageIs d "complete" = false.
Proof.
  unfold stageIs. destruct (pd_stage d) as [s|]; [|discriminate].
  intros H. apply String.eqb_eq in H. subst s. reflexivity.
Qed.

(** C3 (as amended): when a poll response carries the stage ["error"] and
    a progress below 100, [ingestUrl] fails at once with the message of
    the response (with ['Upload failed'] when that message is absent or
    empty), and no poll request follows it. *)
Theorem error_stage_fails (server : nat -> PollOutcome) (n k : nat)
    (url : string) (r : IngestResponse) (d : ProgressData) :
  truthy (upload_id r) = true ->
  (k < n)%nat ->
  (forall j, (j < k)%nat -> pending (server j) = true) ->
  server k = PollResponse true (inr d) ->
  stageIs d "error" = true ->
  pd_progress d < 100 ->
  exists t,
    ingestUrlWithin server n url true (InitResponse true (inr r))
    = (t, Threw (Error (orElse (pd_message d) "Upload failed"))) /\
    polls t = S k.
Proof.
  intros Hid Hk Hpend Hsrv Herr Hlt.
  replace n with (k + S (n - S k))%nat by lia.
  destruct (pollLoop_pending_prefix server k (S (n - S k)) (pollStart r))
    as (t1 & v1 & Hp & Ha & _ & Hrun).
  { intros j Hj. apply Hpend. exact Hj. }
  rewrite ingestUrlWithin_polling by exact Hid.
  rewrite Hrun, pollLoop_S.
  pose proof (iteration_facts server v1) as Hf.
  unfold iteration in *. cbn [pollStart attempts] in Ha.
  rewrite Ha, Nat.add_0_l, Hsrv in *.
  unfold completes in *.
  rewrite (stageIs_error_not_complete d Herr), Herr, orb_false_r in *.
  destruct (Z.geb_spec (pd_progress d) 100) as [Hge|_]; [lia|].
  destruct Hf as (Hp1 & _).
  eexists. split; [reflexivity|].
  cbn [polls]. rewrite polls_app, Hp, Hp1. lia.
Qed.

Lemma error_stage_fails_witness :
  exists t,
    ingestUrlWithin
      (fun k => match k with
                | O => answers (report 10 "running" "Downloading")
                | _ => answers (report 40 "error" "quota exceeded")
                end)
      360 "https://example.org/v.mp4" true (InitResponse true (inr accepted))
    = (t, Threw (Error "quota exceeded")) /\
    polls t = 2%nat.
Proof.
  apply (error_stage_fails _ 360 1 _ accepted
           (report 40 "error" "quota exceeded")).
  - reflexivity.
  - lia.
  - intros j Hj. replace j with O by lia. reflexivity.
  - reflexivity.
  - reflexivity.
  - reflexivity.
Defined.

(** C3 fails as stated: a poll response with the stage ["error"] and the
    progress 100 ends the loop as a completion, and the call returns. *)
Lemma error_stage_at_100_returns :
  let d := report 100 "error" "quota exceeded" in
  stageIs d "error" = true /\
  snd (ingestUrl "https://example.org/v.mp4" true
         (InitResponse true (inr accepted)) (fun _ => answers d))
  = Returned accepted.
Proof. vm_compute. split; reflexivity. Qed.

Lemma initError_None (init : InitOutcome) :
  initError init = None -> exists r, init = InitResponse true (inr r).
Proof.
  destruct init as [e|[|] [e|r]]; try discriminate. intros _. exists r.
  reflexivity.
Qed.

(** C10: whenever [ingestUrl], called with a callback, returns, the last
    event it delivered is the event with progress 100; and when the
    backend answers the initiate request without a job handle the call
    delivers the event with progress 5 and the event with progress 100
    only, and does not poll. *)
Theorem ingestUrl_ends_at_100 :
  (forall (server : nat -> PollOutcome) (url : string) (init : InitOutcome),
     match ingestUrl url true init server with
     | (t, Returned _) =>
         last (percents t) 0 = 100 /\
         exists before, events t = before ++ [processed]
     | (_, Threw _) => True
     end) /\
  (forall (server : nat -> PollOutcome) (url : string) (r : IngestResponse),
     truthy (upload_id r) = false ->
     ingestUrl url true (InitResponse true (inr r)) server
     = ([OnProgress initiating; FetchIngest url; OnProgress processed],
        Returned r) /\
     polls (fst (ingestUrl url true (InitResponse true (inr r)) server)) = O).
Proof.
  split.
  - intros server url init. unfold ingestUrl.
    destruct (initError init) as [e|] eqn:Ei.
    + rewrite (ingestUrlWithin_refused _ _ _ _ _ e Ei). exact I.
    + destruct (initError_None init Ei) as [r ->].
      destruct (truthy (upload_id r)) eqn:Eid.
      * rewrite ingestUrlWithin_polling by exact Eid.
        destruct (pollLoop server maxAttempts (pollStart r))
          as [[t v] [[]|e]]; [|exact I].
        destruct (maxAttempts <=? attempts v)%nat; [exact I|].
        assert (He : events (OnProgress initiating :: FetchIngest url
                               :: t ++ [OnProgress processed])
                     = (initiating :: events t) ++ [processed]).
        { cbn [events app]. rewrite events_app. reflexivity. }
        split; [|exists (initiating :: events t); exact He].
        unfold percents. rewrite He, map_app. apply last_last.
      * rewrite ingestUrlWithin_direct by (rewrite Eid; reflexivity).
        split; [reflexivity|]. exists [initiating]. reflexivity.
  - intros server url r Hid. unfold ingestUrl.
    rewrite ingestUrlWithin_direct by (rewrite Hid; reflexivity).
    split; reflexivity.
Qed.

Lemma ingestUrl_ends_at_100_witness :
  ingestUrl "https://example.org/v.mp4" true
    (InitResponse true (inr finished)) (fun _ => PollRejects NonError)
  = ([OnProgress initiating; FetchIngest "https://example.org/v.mp4";
      OnProgress processed],
     Returned finished).
Proof.
  apply (proj2 ingestUrl_ends_at_100). reflexivity.
Defined.

(** ** Forwarding of poll responses *)

Lemma increasingFrom_absent (low x : Z) (l : list Z) :
  x <= low -> increasingFrom low l -> count_occ Z.eq_dec l x = O.
Proof.
  revert low. induction l as [|y l IH]; intros low Hle Hinc;
    [reflexivity|].
  cbn [increasingFrom] in Hinc. destruct Hinc as [Hlt Hrest].
  cbn [count_occ]. destruct (Z.eq_dec y x) as [->|_]; [lia|].
  apply (IH y); [lia|exact Hrest].
Qed.

Lemma count_occ_percents_tail (t : list Effect) (c : bool) (x : Z) :
  x <> 100 ->
  count_occ Z.eq_dec
    (percents (t ++ (if c then [OnProgress processed] else []))) x
  = count_occ Z.eq_dec (percents t) x.
Proof.
  intros Hx. rewrite percents_app, count_occ_app.
  destruct c; [|cbn [percents events map count_occ]; lia].
  change (percents [OnProgress processed]) with [100].
  cbn [count_occ]. destruct (Z.eq_dec 100 x); lia.
Qed.

(** C5: the percent values that the poll loop forwards increase strictly,
    starting above the last value forwarded before; a poll response is
    forwarded exactly when its progress is greater than the last value
    forwarded; in particular, when the first two polls both answer with
    progress 10, exactly one event with progress 10 is delivered. *)
Theorem forwarded_only_on_increase :
  (forall (server : nat -> PollOutcome) (n : nat) (v : PollVars),
     increasingFrom (lastProgress v)
       (percents (fst (fst (pollLoop server n v))))) /\
  (forall (server : nat -> PollOutcome) (v : PollVars) (d : ProgressData),
     server (attempts v) = PollResponse true (inr d) ->
     events (fst (fst (pollOnce server v)))
     = if pd_progress d >? lastProgress v then [forwarded d] else []) /\
  (forall (server : nat -> PollOutcome) (n : nat) (url : string)
          (r : IngestResponse) (d1 d2 : ProgressData),
     truthy (upload_id r) = true -> (2 <= n)%nat ->
     server O = PollResponse true (inr d1) ->
     server 1%nat = PollResponse true (inr d2) ->
     pd_progress d1 = 10 -> pd_progress d2 = 10 ->
     count_occ Z.eq_dec
       (percents (fst (ingestUrlWithin server n url true
                         (InitResponse true (inr r))))) 10
     = 1%nat).
Proof.
  split; [|split].
  - intros server n v. pose proof (pollLoop_increasing server n v) as H.
    destruct (pollLoop server n v) as [[t v'] c]. apply H.
  - intros server v d Hsrv. rewrite iteration_run, iteration_events, Hsrv.
    reflexivity.
  - intros server n url r d1 d2 Hid Hn H0 _ Hp1 _.
    rewrite ingestUrlWithin_polling by exact Hid.
    destruct n as [|m]; [lia|]. rewrite pollLoop_S.
    unfold iteration. cbn [pollStart attempts lastProgress result].
    rewrite H0, Hp1. cbn [Z.gtb Z.compare Pos.compare Pos.compare_cont].
    destruct (completes d1); [|destruct (stageIs d1 "error")].
    + cbn [set_result noted attempts]. cbn [Nat.leb].
      unfold percents, forwarded. cbn. rewrite Hp1. reflexivity.
    + unfold percents, forwarded. cbn. rewrite Hp1. reflexivity.
    + pose proof (pollLoop_increasing server m
                    (incr_attempts (noted d1 (pollStart r)))) as Hinc.
      destruct (pollLoop server m (incr_attempts (noted d1 (pollStart r))))
        as [[t2 v2] c].
      destruct Hinc as (Hinc & _).
      cbn [incr_attempts noted lastProgress pollStart] in Hinc.
      rewrite Hp1 in Hinc.
      cbn [Z.gtb Z.compare Pos.compare Pos.compare_cont] in Hinc.
      assert (H10 : count_occ Z.eq_dec (percents t2) 10 = O)
        by (apply (increasingFrom_absent 10); [lia|exact Hinc]).
      assert (Hshape : forall final : bool,
        count_occ Z.eq_dec
          (percents (OnProgress initiating :: FetchIngest url
             :: ([FetchProgress (idOf r); OnProgress (forwarded d1)]
                   ++ Delay 2000 :: t2) ++ (if final then [OnProgress processed] else []))) 10
        = 1%nat).
      { intros final.
        change (percents (OnProgress initiating :: FetchIngest url
             :: ([FetchProgress (idOf r); OnProgress (forwarded d1)]
                   ++ Delay 2000 :: t2) ++ (if final then [OnProgress processed] else [])))
          with (5 :: pd_progress d1
                  :: percents (t2 ++ (if final then [OnProgress processed] else []))).
        rewrite Hp1. cbn [count_occ].
        destruct (Z.eq_dec 5 10) as [E|_]; [lia|].
        destruct (Z.eq_dec 10 10) as [_|E]; [|lia].
        rewrite count_occ_percents_tail by lia. rewrite H10. reflexivity. }
      destruct c as [[]|e].
      * destruct (S m <=? attempts v2)%nat.
        -- cbn [fst]. specialize (Hshape false). rewrite app_nil_r in Hshape.
           exact Hshape.
        -- cbn [fst]. exact (Hshape true).
      * cbn [fst]. specialize (Hshape false). rewrite app_nil_r in Hshape.
        exact Hshape.
Qed.

Lemma forwarded_only_on_increase_witness :
  count_occ Z.eq_dec
    (percents (fst (ingestUrlWithin
                      (fun _ => answers (report 10 "running" "Downloading"))
                      3 "https://example.org/v.mp4" true
                      (InitResponse true (inr accepted))))) 10
  = 1%nat.
Proof.
  apply (proj2 (proj2 forwarded_only_on_increase))
    with (d1 := report 10 "running" "Downloading")
         (d2 := report 10 "running" "Downloading");
    try reflexivity.
  lia.
Defined.

(** ** Failures of a poll *)




(** ** Order of the delivered percent values *)

Lemma nondecreasing_app (a b : list Z) :
  nondecreasing a -> nondecreasing b ->
  (forall x y, In x a -> In y b -> x <= y) ->
  nondecreasing (a ++ b).
Proof.
  induction a as [|x a IH]; intros Ha Hb Hab; [exact Hb|].
  destruct a as [|x' a].
  - cbn [app]. destruct b as [|y b]; [exact I|].
    split; [apply Hab; left; reflexivity | exact Hb].
  - cbn [app nondecreasing] in *. destruct Ha as [Hxx' Ha].
    split; [exact Hxx'|].
    apply IH; [exact Ha | exact Hb |].
    intros u w Hu Hw. apply Hab; [right; exact Hu | exact Hw].
Qed.

Lemma increasingFrom_nondecreasing (low : Z) (l : list Z) :
  increasingFrom low l -> nondecreasing (low :: l).
Proof.
  revert low. induction l as [|x l IH]; intros low H; [exact I|].
  cbn [increasingFrom] in H. destruct H as [Hlt Hrest].
  change (low <= x /\ nondecreasing (x :: l)).
  split; [lia | apply IH; exact Hrest].
Qed.

Lemma percentComplete_sorted (T : Z) (evs : list XhrProgressEvent) :
  0 < T ->
  Forall (fun e => ev_total e = T /\ 0 <= ev_loaded e <= T) evs ->
  nondecreasing (map ev_loaded evs) ->
  nondecreasing (map percentComplete evs).
Proof.
  intros HT. induction evs as [|e1 evs IH]; intros Hwf Hs; [exact I|].
  destruct evs as [|e2 evs]; [exact I|].
  cbn [map nondecreasing] in *. destruct Hs as [Hle Hs].
  inversion Hwf as [|? ? [Ht1 _] Hwf']; subst.
  inversion Hwf' as [|? ? [Ht2 _] _]; subst.
  split; [|apply IH; assumption].
  apply percentComplete_mono; lia.
Qed.

Lemma percentComplete_bounded (T : Z) (evs : list XhrProgressEvent) :
  0 < T ->
  Forall (fun e => ev_total e = T /\ 0 <= ev_loaded e <= T) evs ->
  Forall (fun p => 0 <= p <= 50) (map percentComplete evs).
Proof.
  intros HT Hwf. apply Forall_map. revert Hwf. apply Forall_impl.
  intros e [Ht Hl]. apply percentComplete_range; lia.
Qed.

(** The values forwarded by the poll loop are values that the backend
    reported. *)
Lemma pollLoop_reported (server : nat -> PollOutcome) (n : nat) :
  forall v,
    Forall (fun p => exists k d, server k = PollResponse true (inr d) /\
                                 pd_progress d = p)
      (percents (fst (fst (pollLoop server n v)))).
Proof.
  induction n as [|n IH]; intros v; [constructor|].
  rewrite pollLoop_S.
  pose proof (iteration_events server v) as He.
  destruct (iteration server v) as [[t1 v1] c1]. cbn [fst] in He.
  assert (H1 : Forall (fun p => exists k d,
               server k = PollResponse true (inr d) /\ pd_progress d = p)
             (percents t1)).
  { unfold percents. rewrite He.
    destruct (server (attempts v)) as [e|[|] [e|d]] eqn:Es;
      try constructor.
    destruct (pd_progress d >? lastProgress v); constructor;
      [|constructor].
    exists (attempts v), d. split; [exact Es|reflexivity]. }
  destruct c1 as [[|]|e]; try exact H1.
  specialize (IH (incr_attempts v1)).
  destruct (pollLoop server n (incr_attempts v1)) as [[t2 v2] c2].
  cbn [fst] in *. rewrite percents_app.
  change (percents (Delay 2000 :: t2)) with (percents t2).
  apply Forall_app. split; assumption.
Qed.

Lemma nondecreasing_optional (x : Z) (c : bool) :
  nondecreasing (if c then [x] else []).
Proof. destruct c; exact I. Qed.

Lemma In_optional (x y : Z) (c : bool) :
  In y (if c then [x] else []) -> y = x.
Proof. destruct c; [intros [<-|[]]; reflexivity | intros []]. Qed.

(** C1, amended: within one call of a channel the percent values
    delivered to the callback never decrease, provided that for
    [ingestFile] the samples of the upload carry one total [T > 0] and
    byte counts within [0, T] that do not decrease, and that for
    [ingestUrl] no poll response reports a progress above 100. *)
Theorem percent_never_decreases :
  (forall (file : File) (b : bool) (xhr : Xhr) (T : Z),
     0 < T ->
     Forall (fun e => ev_total e = T /\ 0 <= ev_loaded e <= T)
       (sampled (upload_events xhr)) ->
     nondecreasing (map ev_loaded (sampled (upload_events xhr))) ->
     nondecreasing (percents (fst (ingestFile file b xhr)))) /\
  (forall (url : string) (b : bool) (init : InitOutcome)
          (server : nat -> PollOutcome),
     (forall k d, server k = PollResponse true (inr d) ->
                  pd_progress d <= 100) ->
     nondecreasing (percents (fst (ingestUrl url b init server)))).
Proof.
  split.
  - intros file b xhr T HT Hwf Hs.
    destruct (ingestFile_run file b xhr) as (t & c & Hrun & _ & _ & Hpc).
    rewrite Hrun. cbn [fst]. rewrite Hpc.
    pose proof (percentComplete_bounded T _ HT Hwf) as Hb.
    pose proof (percentComplete_sorted T _ HT Hwf Hs) as Hm.
    rewrite Forall_forall in Hb.
    set (post := match c with
                 | Returned _ => if edgeEvents file b then [100] else []
                 | Threw _ => []
                 end).
    assert (Hpost : nondecreasing post /\ forall y, In y post -> y = 100).
    { unfold post. destruct c; [|split; [exact I|intros y []]].
      split; [apply nondecreasing_optional|intros y; apply In_optional]. }
    destruct Hpost as [Hpost Hin].
    apply nondecreasing_app; [apply nondecreasing_optional| |].
    + apply nondecreasing_app; [|exact Hpost|].
      * destruct b; [exact Hm|exact I].
      * intros x y Hx Hy. rewrite (Hin y Hy).
        destruct b; [|destruct Hx]. specialize (Hb x Hx). lia.
    + intros x y Hx Hy. rewrite (In_optional _ _ _ Hx).
      apply in_app_or in Hy. destruct Hy as [Hy|Hy].
      * destruct b; [|destruct Hy]. specialize (Hb y Hy). lia.
      * rewrite (Hin y Hy). lia.
  - intros url b init server Hmax. unfold ingestUrl.
    destruct (initError init) as [e|] eqn:Ei.
    { rewrite (ingestUrlWithin_refused _ _ _ _ _ e Ei).
      destruct b; exact I. }
    destruct (initError_None init Ei) as [r ->].
    destruct (truthy (upload_id r) && b) eqn:Eb.
    2:{ rewrite ingestUrlWithin_direct by exact Eb.
        destruct b; cbn; [lia|exact I]. }
    apply andb_prop in Eb. destruct Eb as [Eid ->].
    rewrite ingestUrlWithin_polling by exact Eid.
    pose proof (pollLoop_increasing server maxAttempts (pollStart r)) as Hinc.
    pose proof (pollLoop_reported server maxAttempts (pollStart r)) as Hrep.
    destruct (pollLoop server maxAttempts (pollStart r)) as [[t v] c].
    cbn [fst] in Hrep. destruct Hinc as (Hinc & _).
    cbn [pollStart lastProgress] in Hinc.
    apply increasingFrom_nondecreasing in Hinc.
    assert (Hfin : nondecreasing
              (percents (OnProgress initiating :: FetchIngest url
                           :: t ++ [OnProgress processed]))).
    { change (nondecreasing ((5 :: percents (t ++ [OnProgress processed])))).
      rewrite percents_app.
      change (nondecreasing ((5 :: percents t) ++ [100])).
      apply nondecreasing_app; [exact Hinc|exact I|].
      intros x y [<-|Hx] [<-|[]]; [lia|].
      rewrite Forall_forall in Hrep.
      destruct (Hrep x Hx) as (k & d & Hsrv & <-).
      apply (Hmax k d Hsrv). }
    destruct c as [[]|e]; [destruct (maxAttempts <=? attempts v)%nat|];
      cbn [fst]; try exact Hfin; exact Hinc.
Qed.

Lemma percent_never_decreases_witness :
  nondecreasing
    (percents (fst (ingestFile {| name := "clip.mp4"; size := 1000 |} true
      {| created := 0;
         upload_events :=
           [{| now := 120; lengthComputable := true;
               ev_loaded := 400; ev_total := 1200 |};
            {| now := 260; lengthComputable := true;
               ev_loaded := 1200; ev_total := 1200 |}];
         ending := Load 200 (Some finished) |}))) /\
  nondecreasing
    (percents (fst (ingestUrl "https://example.org/v.mp4" true
      (InitResponse true (inr accepted))
      (fun k => match k with
                | O => answers (report 10 "running" "Downloading")
                | _ => answers (report 100 "complete" "Done")
                end)))).
Proof.
  split.
  - apply (proj1 percent_never_decreases) with (T := 1200).
    + lia.
    + repeat constructor; cbn; lia.
    + cbn. lia.
  - apply (proj2 percent_never_decreases).
    intros [|k] d [= <-]; cbn; lia.
Defined.

(** C1 fails as stated: a poll response that reports a progress above
    100 is forwarded as it is and ends the loop, and the closing event
    of 100 follows it.  The byte counts of the two responses do not
    decrease, and the percent values delivered are 5, 60, 150, 100. *)
Lemma percent_drops_after_overshoot :
  let d1 := {| pd_progress := 60; pd_loaded := Some 600;
               pd_total := Some 1000; pd_speed := None;
               pd_message := Some "Downloading";
               pd_stage := Some "downloading";
               pd_file_name := None; pd_display_name := None |} in
  let d2 := {| pd_progress := 150; pd_loaded := Some 1500;
               pd_total := Some 1000; pd_speed := None;
               pd_message := Some "Downloading";
               pd_stage := Some "downloading";
               pd_file_name := None; pd_display_name := None |} in
  let run := ingestUrl "https://example.org/v.mp4" true
               (InitResponse true (inr accepted))
               (fun k => match k with
                         | O => answers d1
                         | _ => answers d2
                         end) in
  nondecreasing (map (fun d => orZero (pd_loaded d)) [d1; d2]) /\
  snd run = Returned accepted /\
  polls (fst run) = 2%nat /\
  percents (fst run) = [5; 60; 150; 100] /\
  ~ nondecreasing (percents (fst run)).
Proof.
  cbv zeta. split; [cbn; lia|].
  split; [vm_compute; reflexivity|].
  split; [vm_compute; reflexivity|].
  assert (E : percents (fst (ingestUrl "https://example.org/v.mp4" true
               (InitResponse true (inr accepted))
               (fun k => match k with
                         | O => answers
                             {| pd_progress := 60; pd_loaded := Some 600;
                                pd_total := Some 1000; pd_speed := None;
                                pd_message := Some "Downloading";
                                pd_stage := Some "downloading";
                                pd_file_name := None;
                                pd_display_name := None |}
                         | _ => answers
                             {| pd_progress := 150; pd_loaded := Some 1500;
                                pd_total := Some 1000; pd_speed := None;
                                pd_message := Some "Downloading";
                                pd_stage := Some "downloading";
                                pd_file_name := None;
                                pd_display_name := None |}
                         end))) = [5; 60; 150; 100])
    by (vm_compute; reflexivity).
  rewrite E. split; [reflexivity|].
  cbn. lia.
Qed.

(** C2: for a file of positive size and upload samples whose byte count
    lies within [0, total], [ingestFile] with a callback first delivers
    percent 0, then one percent value within [0, 50] for every sample of
    the transfer, and when the call returns it lastly delivers
    percent 100. *)
Theorem upload_percent_phases (file : File) (xhr : Xhr) :
  0 < size file ->
  Forall (fun e => 0 < ev_total e /\ 0 <= ev_loaded e <= ev_total e)
    (sampled (upload_events xhr)) ->
  let transfer := map percentComplete (sampled (upload_events xhr)) in
  percents (fst (ingestFile file true xhr))
  = 0 :: transfer
      ++ match snd (ingestFile file true xhr) with
         | Returned _ => [100]
         | Threw _ => []
         end /\
  Forall (fun p => 0 <= p <= 50) transfer.
Proof.
  intros Hsize Hwf. cbv zeta.
  destruct (ingestFile_run file true xhr) as (t & c & Hrun & _ & _ & Hpc).
  rewrite Hrun. cbn [fst snd]. rewrite Hpc.
  unfold edgeEvents. cbn [andb].
  destruct (Z.eqb_spec (size file) 0) as [E|_]; [lia|]. cbn [negb].
  split; [reflexivity|].
  apply Forall_map. revert Hwf. apply Forall_impl.
  intros e [Ht Hl]. apply percentComplete_range; assumption.
Qed.

Lemma upload_percent_phases_witness :
  let xhr :=
    {| created := 0;
       upload_events :=
         [{| now := 120; lengthComputable := true;
             ev_loaded := 400; ev_total := 1200 |};
          {| now := 150; lengthComputable := false;
             ev_loaded := 0; ev_total := 0 |};
          {| now := 260; lengthComputable := true;
             ev_loaded := 1200; ev_total := 1200 |}];
       ending := Load 200 (Some finished) |} in
  percents (fst (ingestFile {| name := "clip.mp4"; size := 1000 |} true xhr))
  = [0; 17; 50; 100].
Proof.
  cbv zeta.
  refine (proj1 (upload_percent_phases {| name := "clip.mp4"; size := 1000 |}
                   _ _ _)).
  - reflexivity.
  - repeat constructor; cbn; lia.
Defined.

(** ** The coordinator *)

Lemma ingestUrl_requests (server : nat -> PollOutcome) (n : nat)
    (url : string) (b : bool) (init : InitOutcome) :
  ingestRequests (fst (ingestUrlWithin server n url b init)) = 1%nat.
Proof.
  destruct (initError init) as [e|] eqn:Ei.
  { rewrite (ingestUrlWithin_refused _ _ _ _ _ e Ei). destruct b; reflexivity. }
  destruct (initError_None init Ei) as [r ->].
  destruct (truthy (upload_id r) && b) eqn:Eb.
  2:{ rewrite ingestUrlWithin_direct by exact Eb. destruct b; reflexivity. }
  apply andb_prop in Eb. destruct Eb as [Eid ->].
  rewrite ingestUrlWithin_polling by exact Eid.
  pose proof (pollLoop_increasing server n (pollStart r)) as H.
  destruct (pollLoop server n (pollStart r)) as [[t v] c].
  destruct H as (_ & Hi & _).
  destruct c as [[]|e]; [destruct (n <=? attempts v)%nat|];
    cbn [fst ingestRequests]; rewrite ?ingestRequests_app, Hi; reflexivity.
Qed.

Lemma channelRun_requests (w : World) (st : State) t c :
  channelRun w st = Some (t, c) -> ingestRequests t = 1%nat.
Proof.
  unfold channelRun.
  destruct (activeTab st); [destruct (file st) as [f|]|
                            destruct (url st =? "")%string];
    try discriminate; intros [= H].
  - destruct (ingestFile_run f true (xhr w)) as (t' & c' & Hrun & _ & Hi & _).
    rewrite Hrun in H. injection H as <- _. exact Hi.
  - pose proof (ingestUrl_requests (server w) maxAttempts (url st) true
                  (init w)) as Hi.
    unfold ingestUrl in H. rewrite H in Hi. exact Hi.
Qed.

Lemma let_pair_eta (t : list Effect) (p : list Effect * State) :
  (let (t', st') := p in (t ++ t', st')) = (t ++ fst p, snd p).
Proof. destruct p. reflexivity. Qed.

(** [handleIngest] is the call of the channel followed by [settle]. *)
Lemma handleIngest_run (w : World) (st : State) t c :
  channelRun w st = Some (t, c) ->
  exists st1,
    handleIngest w st = (t ++ fst (settle c st1), snd (settle c st1)).
Proof.
  unfold channelRun, handleIngest.
  cbn [activeTab file url setUploadStatus setErrorMessage setSummaryResult
       setQaResult setQaHistory setUploadProgress setUploadMessage].
  destruct (activeTab st); [destruct (file st) as [f|]|
                            destruct (url st =? "")%string];
    try discriminate; intros [= H]; rewrite H.
  - eexists. apply let_pair_eta.
  - eexists. apply let_pair_eta.
Qed.

(** C7: when the channel that [handleIngest] called fails, the coordinator
    ends in the status [ERROR] with progress 0 and with the message of
    the error stored unchanged (['Unknown error'] for a thrown value
    that is no [Error]), which the status area then shows; the attempt
    made exactly one ingestion request, so nothing was retried. *)
Theorem failure_is_reported (w : World) (st : State) (t : list Effect)
    (e : thrown) :
  channelRun w st = Some (t, Threw e) ->
  let t' := fst (handleIngest w st) in
  let st' := snd (handleIngest w st) in
  uploadStatus st' = ERROR /\
  uploadProgress st' = 0 /\
  errorMessage st'
  = match e with Error m => m | NonError => "Unknown error" end /\
  (forall errorIngest,
     IngestSection.errorBanner errorIngest st'
     = Some (orElse (Some (errorMessage st')) errorIngest)) /\
  ingestRequests t' = 1%nat.
Proof.
  intros Hrun. cbv zeta.
  destruct (handleIngest_run w st t _ Hrun) as [st1 ->].
  cbn [fst snd settle]. repeat split.
  - destruct e; reflexivity.
  - rewrite ingestRequests_app. cbn [ingestRequests].
    rewrite (channelRun_requests w st t _ Hrun). reflexivity.
Qed.

Lemma failure_is_reported_witness :
  let st' := snd (handleIngest outOfQuota
                    (mounted "https://example.org/v.mp4")) in
  uploadStatus st' = ERROR /\
  uploadProgress st' = 0 /\
  errorMessage st' = "quota exceeded".
Proof.
  cbv zeta.
  destruct (failure_is_reported outOfQuota
              (mounted "https://example.org/v.mp4")
              (fst (ingestUrl "https://example.org/v.mp4" true
                      (InitResponse true (inr accepted))
                      (fun _ => answers (report 40 "error" "quota exceeded"))))
              (Error "quota exceeded")) as (H1 & H2 & H3 & _).
  - vm_compute. reflexivity.
  - repeat split; assumption.
Defined.

(** C8 (as amended): selecting a listed asset, in whatever state the
    coordinator is, sets the status to [SUCCESS], adopts the identifier
    of the asset and its display name (the identifier when it has none),
    empties the summary, the answer and the question history, and leaves
    no error banner on display; the stored error message itself is left
    as it was. *)
Theorem select_from_history (fileName : string) (displayName : option string)
    (st : State) :
  let st' := handleSelectFromHistory fileName displayName st in
  uploadStatus st' = SUCCESS /\
  uploadedFileName st' = Some fileName /\
  originalFileName st' = Some (orElse displayName fileName) /\
  (forall errorIngest, IngestSection.errorBanner errorIngest st' = None) /\
  errorMessage st' = errorMessage st /\
  summaryResult st' = "" /\
  qaResult st' = "" /\
  qaHistory st' = [].
Proof.
  cbv zeta. repeat split.
  unfold handleSelectFromHistory, firstTruthy, truthy, orElse.
  destruct displayName as [s|]; [|reflexivity].
  destruct (s =? "")%string; reflexivity.
Qed.

(** C8 fails as stated: after an attempt that failed, selecting an asset
    leaves the error message of that attempt in the state. *)
Lemma select_keeps_error_message :
  let failed := snd (handleIngest outOfQuota
                       (mounted "https://example.org/v.mp4")) in
  let selected :=
    handleSelectFromHistory "files/abc" (Some "clip.mp4") failed in
  uploadStatus failed = ERROR /\
  errorMessage failed = "quota exceeded" /\
  errorMessage selected = "quota exceeded" /\
  errorMessage selected <> "".
Proof. vm_compute. repeat split. discriminate. Qed.

(** * Further properties of the code *)

Import Waiting Upload Coordinator.

(** ** The speed meter *)

Lemma timeDiff_positive (dt : Z) :
  100 <= dt -> (0 < inject_Z dt / 1000)%Q.
Proof.
  intros H. unfold Qlt, Qdiv, Qmult, inject_Z; simpl. lia.
Qed.

Lemma nondecreasing_head (x : Z) (l : list Z) :
  nondecreasing (x :: l) -> Forall (Z.le x) l /\ nondecreasing l.
Proof.
  revert x. induction l as [|y l IH]; intros x H; [split; [constructor|exact I]|].
  destruct H as [Hxy Hl]. split; [|exact Hl].
  constructor; [exact Hxy|].
  destruct (IH y Hl) as [Hall _].
  revert Hall. apply Forall_impl. intros z Hz. lia.
Qed.

Lemma meter_keeps_nonnegative (e : XhrProgressEvent) (v : UploadVars) :
  lastLoaded v <= ev_loaded e -> (0 <= currentSpeed v)%Q ->
  (0 <= currentSpeed (meter e v))%Q /\
  (lastLoaded (meter e v) = lastLoaded v \/
   lastLoaded (meter e v) = ev_loaded e).
Proof.
  intros Hl Hs. unfold meter. rewrite timeDiff_threshold.
  destruct (Z.leb_spec 100 (now e - lastTime v)) as [Hdt|Hdt];
    [|split; [exact Hs|left; reflexivity]].
  split; [|right; reflexivity]. cbn [currentSpeed].
  assert (Hi : (0 <= inject_Z (ev_loaded e - lastLoaded v)
                     / (inject_Z (now e - lastTime v) / 1000))%Q).
  { apply Qle_shift_div_l; [apply timeDiff_positive; exact Hdt|].
    rewrite Qmult_0_l. rewrite <- (Zle_Qle 0). lia. }
  destruct (Qeq_bool (currentSpeed v) 0); [exact Hi|].
  unfold smoothingFactor.
  set (i := (inject_Z (ev_loaded e - lastLoaded v)
             / (inject_Z (now e - lastTime v) / 1000))%Q) in *.
  lra.
Qed.

Lemma forEach_onprogress_speed (evs : list XhrProgressEvent) :
  forall v,
    nondecreasing (map ev_loaded (sampled evs)) ->
    Forall (fun e => lastLoaded v <= ev_loaded e) (sampled evs) ->
    (0 <= currentSpeed v)%Q ->
    Forall (fun i => (0 <= speed i)%Q)
      (events (fst (fst (forEach evs (onprogress true) v)))).
Proof.
  induction evs as [|e evs IH]; intros v Hs Hl Hv; [constructor|].
  cbn [forEach]. unfold bind at 1. rewrite onprogress_run.
  unfold sampled in *. cbn [filter] in Hs, Hl.
  destruct (lengthComputable e) eqn:El; cbn [andb].
  - cbn [map] in Hs. apply nondecreasing_head in Hs.
    destruct Hs as [Hhead Hs]. inversion Hl as [|? ? Hle Hl']; subst.
    destruct (meter_keeps_nonnegative e v Hle Hv) as [Hv' Hlast].
    assert (Hl2 : Forall (fun e0 => lastLoaded (meter e v) <= ev_loaded e0)
                    (filter lengthComputable evs)).
    { destruct Hlast as [->| ->]; [exact Hl'|].
      rewrite Forall_map in Hhead. exact Hhead. }
    specialize (IH (meter e v) Hs Hl2 Hv').
    destruct (forEach evs (onprogress true) (meter e v)) as [[t2 v2] c2].
    cbn [fst app events] in *. constructor; [exact Hv'|exact IH].
  - specialize (IH v Hs Hl Hv).
    destruct (forEach evs (onprogress true) v) as [[t2 v2] c2].
    cbn [fst app] in *. exact IH.
Qed.

(** The whole trace of [ingestFile]. *)
Lemma ingestFile_trace (file : File) (b : bool) (xhr : Xhr) :
  ingestFile file b xhr
  = ((if edgeEvents file b then [OnProgress (starting file)] else [])
       ++ XhrSend file
       :: fst (fst (forEach (upload_events xhr) (onprogress b)
                      (meterStart xhr)))
       ++ match uploadOutcome (ending xhr) with
          | Returned _ =>
              if edgeEvents file b then [OnProgress (uploaded file)] else []
          | Threw _ => []
          end,
     uploadOutcome (ending xhr)).
Proof.
  unfold ingestFile, run, scoped. fold (meterStart xhr).
  destruct (forEach_onprogress b (upload_events xhr) (meterStart xhr))
    as (t & v' & Hrun & _).
  rewrite Hrun. cbn [fst].
  assert (Hend : exists t2,
    match ending xhr with
    | Load xhr_status responseText => onload file b xhr_status responseText
    | NetworkFailure => throw (Error "Network error")
    end v' = (t2, v', uploadOutcome (ending xhr)) /\
    t2 = match uploadOutcome (ending xhr) with
         | Returned _ =>
             if edgeEvents file b then [OnProgress (uploaded file)] else []
         | Threw _ => []
         end).
  { unfold uploadOutcome, edgeEvents. destruct (ending xhr) as [st txt|].
    - unfold onload.
      destruct ((200 <=? st) && (st <? 300)); destruct txt as [r|];
        destruct (b && negb (size file =? 0));
        eexists; split; reflexivity.
    - eexists; split; reflexivity. }
  destruct Hend as (t2 & Hend & ->).
  fold (edgeEvents file b).
  destruct (edgeEvents file b); cbn [when];
    (erewrite bind_returned;
      [| reflexivity
       | eapply bind_returned;
           [reflexivity | eapply bind_returned; [exact Hrun | exact Hend]]]);
    reflexivity.
Qed.

(** How an upload ends depends on the end of the request alone: a
    transport failure gives ['Network error'], a status outside 2xx the
    [detail] of the body or ['Upload failed'], a 2xx response that is not
    JSON ['Failed to parse response'], and any other 2xx response is
    returned; neither the file, the callback nor the progress events
    change that. *)
Theorem upload_outcome (file : File) (b : bool) (xhr : Xhr) :
  snd (ingestFile file b xhr) = uploadOutcome (ending xhr) /\
  polls (fst (ingestFile file b xhr)) = O /\
  ingestRequests (fst (ingestFile file b xhr)) = 1%nat.
Proof.
  destruct (ingestFile_run file b xhr) as (t & c & Hrun & Hp & Hi & _).
  rewrite ingestFile_trace in Hrun. rewrite ingestFile_trace.
  injection Hrun as Ht Hc. cbn [fst snd]. rewrite Ht. auto.
Qed.

(** When the byte counts of the samples start at 0 or above and never
    decrease, no event of an upload reports a negative speed. *)
Theorem upload_speed_nonnegative (file : File) (xhr : Xhr) :
  nondecreasing (map ev_loaded (sampled (upload_events xhr))) ->
  Forall (fun e => 0 <= ev_loaded e) (sampled (upload_events xhr)) ->
  Forall (fun i => (0 <= speed i)%Q)
    (events (fst (ingestFile file true xhr))).
Proof.
  intros Hs Hl. rewrite ingestFile_trace. cbn [fst].
  pose proof (forEach_onprogress_speed (upload_events xhr) (meterStart xhr)
                Hs Hl) as Hmid.
  assert (H0 : (0 <= 0)%Q) by apply Qle_refl.
  specialize (Hmid H0).
  rewrite events_app. apply Forall_app. split.
  - destruct (edgeEvents file true); repeat constructor. exact H0.
  - cbn [events]. rewrite events_app. apply Forall_app. split; [exact Hmid|].
    destruct (uploadOutcome (ending xhr));
      [destruct (edgeEvents file true)|]; repeat constructor. exact H0.
Qed.

Lemma upload_speed_nonnegative_witness :
  Forall (fun i => (0 <= speed i)%Q)
    (events (fst (ingestFile clip true threeSamples))).
Proof.
  apply upload_speed_nonnegative.
  - cbn. lia.
  - repeat constructor; cbn; lia.
Defined.

(** ** The remote-fetch channel *)

Lemma delays_app (t1 t2 : list Effect) :
  delays (t1 ++ t2) = (delays t1 + delays t2)%nat.
Proof.
  induction t1 as [|e t1 IH]; simpl; [reflexivity|].
  destruct e; simpl; rewrite IH; reflexivity.
Qed.

Lemma waited_app (t1 t2 : list Effect) :
  waited (t1 ++ t2) = waited t1 + waited t2.
Proof.
  induction t1 as [|e t1 IH]; simpl; [reflexivity|].
  destruct e; simpl; rewrite IH; lia.
Qed.

Lemma iteration_waits (server : nat -> PollOutcome) (v : PollVars) :
  delays (fst (fst (iteration server v))) = O /\
  waited (fst (fst (iteration server v))) = 0.
Proof.
  unfold iteration.
  destruct (server (attempts v)) as [e|[|] [e|d]];
    try (destruct (otherError e); split; reflexivity);
    try (split; reflexivity).
  destruct (completes d); [|destruct (stageIs d "error")];
    destruct (pd_progress d >? lastProgress v); split; reflexivity.
Qed.

Lemma pollLoop_waits (server : nat -> PollOutcome) (n : nat) :
  forall v,
    match pollLoop server n v with
    | (t, _, _) =>
        (delays t <= polls t)%nat /\ waited t = 2000 * Z.of_nat (delays t)
    end.
Proof.
  induction n as [|n IH]; intros v; [cbn; split; lia|].
  rewrite pollLoop_S.
  pose proof (iteration_facts server v) as Hf.
  pose proof (iteration_waits server v) as Hw.
  destruct (iteration server v) as [[t1 v1] [[|]|e]];
    destruct Hf as (Hp & _); cbn [fst] in Hw; destruct Hw as [Hd Hwt];
    try (split; lia).
  specialize (IH (incr_attempts v1)).
  destruct (pollLoop server n (incr_attempts v1)) as [[t2 v2] c].
  destruct IH as [IHd IHw].
  rewrite delays_app, polls_app, waited_app. cbn [delays polls waited].
  split; lia.
Qed.

(** Whatever the backend answers, one call of [ingestUrl] issues at most
    360 poll requests, waits exactly 2000ms at a time and never more often
    than it polled, so that it waits 720 seconds at most. *)
Theorem polling_is_bounded (url : string) (b : bool) (init : InitOutcome)
    (server : nat -> PollOutcome) :
  let t := fst (ingestUrl url b init server) in
  (polls t <= 360)%nat /\
  (delays t <= polls t)%nat /\
  waited t = 2000 * Z.of_nat (delays t) /\
  waited t <= 720000.
Proof.
  cbv zeta. unfold ingestUrl.
  assert (H : (polls (fst (ingestUrlWithin server maxAttempts url b init))
               <= maxAttempts)%nat /\
              (delays (fst (ingestUrlWithin server maxAttempts url b init))
               <= polls (fst (ingestUrlWithin server maxAttempts url b init)))%nat
              /\ waited (fst (ingestUrlWithin server maxAttempts url b init))
                 = 2000 * Z.of_nat
                     (delays (fst (ingestUrlWithin server maxAttempts url b
                                     init)))).
  { destruct (initError init) as [e|] eqn:Ei.
    { rewrite (ingestUrlWithin_refused _ _ _ _ _ e Ei).
      destruct b; cbn; repeat split; lia. }
    destruct (initError_None init Ei) as [r ->].
    destruct (truthy (upload_id r) && b) eqn:Eb.
    2:{ rewrite ingestUrlWithin_direct by exact Eb.
        destruct b; cbn; repeat split; lia. }
    apply andb_prop in Eb. destruct Eb as [Eid ->].
    rewrite ingestUrlWithin_polling by exact Eid.
    pose proof (pollLoop_increasing server maxAttempts (pollStart r)) as Hi.
    pose proof (pollLoop_waits server maxAttempts (pollStart r)) as Hw.
    destruct (pollLoop server maxAttempts (pollStart r)) as [[t v] c].
    destruct Hi as (_ & _ & Hp). destruct Hw as [Hd Hwt].
    destruct c as [[]|e]; [destruct (maxAttempts <=? attempts v)%nat|];
      cbn [fst polls delays waited];
      rewrite ?polls_app, ?delays_app, ?waited_app;
      cbn [polls delays waited]; repeat split; lia. }
  destruct H as (Hp & Hd & Hw). unfold maxAttempts in *.
  repeat split; try assumption. lia.
Qed.

(** Without a callback [ingestUrl] never polls: it sends the initiate
    request only and returns what the backend answered, also when that
    answer carries a job handle for a job still running. *)
Theorem ingestUrl_without_callback (url : string) (init : InitOutcome)
    (server : nat -> PollOutcome) (r : IngestResponse) :
  fst (ingestUrl url false init server) = [FetchIngest url] /\
  ingestUrl url false (InitResponse true (inr r)) server
  = ([FetchIngest url], Returned r).
Proof.
  unfold ingestUrl. split.
  - destruct (initError init) as [e|] eqn:Ei.
    + rewrite (ingestUrlWithin_refused _ _ _ _ _ e Ei). reflexivity.
    + destruct (initError_None init Ei) as [r0 ->].
      rewrite ingestUrlWithin_direct by apply andb_false_r. reflexivity.
  - rewrite ingestUrlWithin_direct by apply andb_false_r. reflexivity.
Qed.

(** A refused initiate request ends the call before any poll: the error
    is the one [fetch] or [response.json()] threw, or for a status
    outside 2xx the [detail] of the body, ['Network response was not ok']
    when the body has none, and ['URL ingestion failed'] when the body
    is not JSON. *)
Theorem initiate_refused (url : string) (b : bool)
    (server : nat -> PollOutcome) :
  let sent := (if b then [OnProgress initiating] else [])
                ++ [FetchIngest url] in
  (forall e, ingestUrl url b (InitRejects e) server = (sent, Threw e)) /\
  (forall body,
     ingestUrl url b (InitResponse false (inr body)) server
     = (sent,
        Threw (Error (orElse (detail body) "Network response was not ok"))))
  /\
  (forall e,
     ingestUrl url b (InitResponse false (inl e)) server
     = (sent, Threw (Error "URL ingestion failed"))) /\
  (forall e,
     ingestUrl url b (InitResponse true (inl e)) server = (sent, Threw e)).
Proof.
  cbv zeta. unfold ingestUrl.
  repeat split; intros; apply ingestUrlWithin_refused; reflexivity.
Qed.

(** The first poll response that reports a progress of 100 or more, or the
    stage ["complete"], ends the polling: [ingestUrl] returns the initiate
    response with the file name and the display name of that poll
    response taken over where it carries them, and no poll follows. *)
Theorem first_completion_ends_polling (server : nat -> PollOutcome)
    (n k : nat) (url : string) (r : IngestResponse) (d : ProgressData) :
  truthy (upload_id r) = true ->
  (k < n)%nat ->
  (forall j, (j < k)%nat -> pending (server j) = true) ->
  server k = PollResponse true (inr d) ->
  100 <= pd_progress d \/ stageIs d "complete" = true ->
  exists t,
    ingestUrlWithin server n url true (InitResponse true (inr r))
    = (t, Returned (adopt d r)) /\
    polls t = S k /\
    upload_id (adopt d r) = upload_id r /\
    file_name (adopt d r)
    = (if truthy (pd_file_name d) then pd_file_name d else file_name r) /\
    display_name (adopt d r)
    = (if truthy (pd_display_name d) then pd_display_name d
       else display_name r).
Proof.
  intros Hid Hk Hpend Hsrv Hdone.
  assert (Hc : completes d = true).
  { unfold completes. destruct Hdone as [H|H].
    - rewrite (proj2 (Z.geb_le _ _) H). reflexivity.
    - rewrite H. apply orb_true_r. }
  replace n with (k + S (n - S k))%nat by lia.
  destruct (pollLoop_pending_prefix server k (S (n - S k)) (pollStart r))
    as (t1 & v1 & Hp & Ha & Hr & Hrun).
  { intros j Hj. apply Hpend. exact Hj. }
  rewrite ingestUrlWithin_polling by exact Hid.
  rewrite Hrun, pollLoop_S.
  pose proof (iteration_facts server v1) as Hf.
  unfold iteration in *. cbn [pollStart attempts result] in Ha, Hr.
  rewrite Ha, Nat.add_0_l, Hsrv, Hc in *.
  destruct Hf as (Hp1 & _).
  cbn [set_result noted attempts result]. rewrite Ha, Hr. rewrite Hr in Hp1.
  destruct (Nat.leb_spec (k + S (n - S k)) k) as [Hle|_]; [lia|].
  eexists. split; [reflexivity|]. split.
  - cbn [polls]. rewrite !polls_app, Hp, Hp1. cbn [polls]. lia.
  - unfold adopt.
    destruct (truthy (pd_file_name d)); destruct (truthy (pd_display_name d));
      repeat split.
Qed.

Lemma first_completion_ends_polling_witness :
  exists t,
    ingestUrlWithin
      (fun k => match k with
                | O => answers (report 60 "running" "Uploading to Gemini")
                | _ =>
                    PollResponse true (inr
                      {| pd_progress := 100; pd_loaded := None;
                         pd_total := None; pd_speed := None;
                         pd_message := Some "Done";
                         pd_stage := Some "complete";
                         pd_file_name := Some "files/abc";
                         pd_display_name := None |})
                end)
      360 "https://example.org/v.mp4" true (InitResponse true (inr accepted))
    = (t, Returned
            {| file_name := Some "files/abc"; status := Some "processing";
               upload_id := Some "job-1"; display_name := None;
               detail := None |}) /\
    polls t = 2%nat.
Proof.
  destruct (first_completion_ends_polling
    (fun k => match k with
              | O => answers (report 60 "running" "Uploading to Gemini")
              | _ =>
                  PollResponse true (inr
                    {| pd_progress := 100; pd_loaded := None;
                       pd_total := None; pd_speed := None;
                       pd_message := Some "Done";
                       pd_stage := Some "complete";
                       pd_file_name := Some "files/abc";
                       pd_display_name := None |})
              end)
    360 1 "https://example.org/v.mp4" accepted
    {| pd_progress := 100; pd_loaded := None;
       pd_total := None; pd_speed := None;
       pd_message := Some "Done";
       pd_stage := Some "complete";
       pd_file_name := Some "files/abc";
       pd_display_name := None |}) as (t & Hrun & Hp & _).
  - reflexivity.
  - lia.
  - intros j Hj. replace j with O by lia. reflexivity.
  - reflexivity.
  - left. cbn. lia.
  - exists t. split; [exact Hrun|exact Hp].
Defined.

(** ** The coordinator, beyond failures *)

Lemma deliver_keeps (t : list Effect) :
  forall st,
    activeTab (deliver t st) = activeTab st /\
    file (deliver t st) = file st /\
    url (deliver t st) = url st /\
    uploadedFileName (deliver t st) = uploadedFileName st /\
    originalFileName (deliver t st) = originalFileName st /\
    errorMessage (deliver t st) = errorMessage st /\
    summaryResult (deliver t st) = summaryResult st /\
    qaResult (deliver t st) = qaResult st /\
    qaHistory (deliver t st) = qaHistory st /\
    showHistory (deliver t st) = showHistory st.
Proof.
  unfold deliver. induction t as [|e t IH]; intros st;
    [repeat split|].
  cbn [fold_left].
  destruct e; try apply IH.
  specialize (IH (onProgress info st)).
  unfold onProgress in *.
  destruct (progress info >=? 40); exact IH.
Qed.

Lemma handleIngest_begun (w : World) (st : State) t c :
  channelRun w st = Some (t, c) ->
  handleIngest w st
  = (t ++ fst (settle c (deliver t (begun st))),
     snd (settle c (deliver t (begun st)))).
Proof.
  unfold channelRun, handleIngest, begun, cleared.
  cbn [activeTab file url setUploadStatus setErrorMessage setSummaryResult
       setQaResult setQaHistory setUploadProgress setUploadMessage].
  destruct (activeTab st); [destruct (file st) as [f|]|
                            destruct (url st =? "")%string];
    try discriminate; intros [= H]; rewrite H; apply let_pair_eta.
Qed.

Lemma handleIngest_idle (w : World) (st : State) :
  channelRun w st = None -> handleIngest w st = ([], cleared st).
Proof.
  unfold channelRun, handleIngest, cleared.
  cbn [activeTab file url setUploadStatus setErrorMessage setSummaryResult
       setQaResult setQaHistory setUploadProgress setUploadMessage].
  destruct (activeTab st); [destruct (file st) as [f|]|
                            destruct (url st =? "")%string];
    try discriminate; reflexivity.
Qed.

(** When the channel that [handleIngest] called returns, the coordinator
    ends in the status [SUCCESS] with progress 100, takes the file name of
    the response as the active asset and its display name (the file name
    when it has none) as the name shown, and holds no error message; the
    attempt made exactly one ingestion request. *)
Theorem success_is_adopted (w : World) (st : State) (t : list Effect)
    (r : IngestResponse) :
  channelRun w st = Some (t, Returned r) ->
  let st' := snd (handleIngest w st) in
  uploadStatus st' = SUCCESS /\
  uploadProgress st' = 100 /\
  uploadMessage st' = "Upload complete!" /\
  uploadedFileName st' = file_name r /\
  originalFileName st'
  = (if truthy (display_name r) then display_name r else file_name r) /\
  errorMessage st' = "" /\
  fst (handleIngest w st) = t.
Proof.
  intros Hrun. cbv zeta. rewrite (handleIngest_begun w st t _ Hrun).
  cbn [fst snd settle]. rewrite app_nil_r.
  repeat split.
  cbn [errorMessage setUploadMessage setUploadProgress setUploadStatus
       setOriginalFileName setUploadedFileName].
  destruct (deliver_keeps t (begun st)) as (_ & _ & _ & _ & _ & He & _).
  rewrite He. unfold begun, cleared. destruct (activeTab st); reflexivity.
Qed.

Lemma success_is_adopted_witness :
  let st' := snd (handleIngest
                    {| xhr := threeSamples;
                       init := InitResponse true (inr finished);
                       server := fun _ => PollRejects NonError |}
                    (mounted "https://example.org/v.mp4")) in
  uploadStatus st' = SUCCESS /\
  uploadedFileName st' = Some "files/abc" /\
  originalFileName st' = Some "clip.mp4".
Proof.
  cbv zeta.
  destruct (success_is_adopted
              {| xhr := threeSamples;
                 init := InitResponse true (inr finished);
                 server := fun _ => PollRejects NonError |}
              (mounted "https://example.org/v.mp4")
              [OnProgress initiating;
               FetchIngest "https://example.org/v.mp4";
               OnProgress processed]
              finished) as (H1 & _ & _ & H4 & H5 & _).
  - vm_compute. reflexivity.
  - repeat split; assumption.
Defined.


(** A failed attempt leaves the asset that was active before in place:
    its identifier and the name shown are those of before the attempt. *)
Theorem failure_keeps_active_asset (w : World) (st : State)
    (t : list Effect) (e : thrown) :
  channelRun w st = Some (t, Threw e) ->
  let st' := snd (handleIngest w st) in
  uploadedFileName st' = uploadedFileName st /\
  originalFileName st' = originalFileName st.
Proof.
  intros Hrun. cbv zeta. rewrite (handleIngest_begun w st t _ Hrun).
  cbn [snd settle uploadedFileName originalFileName setUploadProgress
       setErrorMessage setUploadStatus].
  destruct (deliver_keeps t (begun st)) as (_ & _ & _ & Hn & Ho & _).
  rewrite Hn, Ho. unfold begun, cleared. destruct (activeTab st); split;
    reflexivity.
Qed.

Lemma failure_keeps_active_asset_witness :
  let before :=
    handleSelectFromHistory "files/old" (Some "old.mp4")
      (mounted "https://example.org/v.mp4") in
  uploadedFileName (snd (handleIngest outOfQuota before)) = Some "files/old".
Proof.
  cbv zeta.
  refine (proj1 (failure_keeps_active_asset outOfQuota
    (handleSelectFromHistory "files/old" (Some "old.mp4")
       (mounted "https://example.org/v.mp4"))
    (fst (ingestUrl "https://example.org/v.mp4" true
            (InitResponse true (inr accepted))
            (fun _ => answers (report 40 "error" "quota exceeded"))))
    (Error "quota exceeded") _)).
  vm_compute. reflexivity.
Defined.

(** [handleIngest] called with nothing to ingest (no file chosen on the
    file tab, or an empty URL on the URL tab) sends no request and leaves
    the coordinator in the status [UPLOADING] with progress 0: the
    attempt never settles. *)
Theorem ingest_without_input (w : World) (st : State) :
  (activeTab st = TabFile /\ file st = None) \/
  (activeTab st = TabUrl /\ url st = "") ->
  fst (handleIngest w st) = [] /\
  uploadStatus (snd (handleIngest w st)) = UPLOADING /\
  uploadProgress (snd (handleIngest w st)) = 0.
Proof.
  intros H.
  assert (Hrun : channelRun w st = None).
  { unfold channelRun. destruct H as [[-> ->]|[-> ->]]; reflexivity. }
  rewrite (handleIngest_idle w st Hrun). repeat split.
Qed.

Lemma ingest_without_input_witness :
  uploadStatus (snd (handleIngest outOfQuota (mounted ""))) = UPLOADING.
Proof.
  refine (proj1 (proj2 (ingest_without_input outOfQuota (mounted "") _))).
  right. split; reflexivity.
Defined.

(** While the ingest button is enabled, a click on it reaches a channel:
    the attempt makes exactly one ingestion request and settles in
    [SUCCESS] or in [ERROR]. *)
Theorem enabled_button_settles (w : World) (online : bool) (st : State) :
  ingestDisabled online st = false ->
  ingestRequests (fst (handleIngest w st)) = 1%nat /\
  (uploadStatus (snd (handleIngest w st)) = SUCCESS \/
   uploadStatus (snd (handleIngest w st)) = ERROR).
Proof.
  intros H. unfold ingestDisabled in H.
  apply orb_false_elim in H. destruct H as [H _].
  apply orb_false_elim in H. destruct H as [H Hurl].
  apply orb_false_elim in H. destruct H as [_ Hfile].
  destruct (channelRun w st) as [[t c]|] eqn:Hrun.
  - rewrite (handleIngest_begun w st t c Hrun). cbn [fst snd].
    rewrite ingestRequests_app, (channelRun_requests w st t c Hrun).
    destruct c as [r|e]; cbn [settle fst snd ingestRequests];
      split; auto.
  - exfalso. unfold channelRun in Hrun.
    destruct (activeTab st); [destruct (file st)|
                              destruct (url st =? "")%string];
      discriminate.
Qed.

Lemma enabled_button_settles_witness :
  uploadStatus (snd (handleIngest outOfQuota
                       (mounted "https://example.org/v.mp4"))) = SUCCESS \/
  uploadStatus (snd (handleIngest outOfQuota
                       (mounted "https://example.org/v.mp4"))) = ERROR.
Proof.
  refine (proj2 (enabled_button_settles outOfQuota true
                   (mounted "https://example.org/v.mp4") _)).
  reflexivity.
Defined.

(** While the events of a channel arrive, the progress shown is the
    percent of the last event; the status turns to [PROCESSING] with the
    first event of 40 percent or more and does not turn back. *)
Theorem progress_follows_events (t : list Effect) (st : State) :
  uploadProgress (deliver t st) = last (percents t) (uploadProgress st) /\
  uploadStatus (deliver t st)
  = (if existsb (fun p => p >=? 40) (percents t) then PROCESSING
     else uploadStatus st).
Proof.
  unfold deliver. revert st. induction t as [|e t IH]; intros st;
    [split; reflexivity|].
  cbn [fold_left].
  destruct e; try apply IH.
  change (percents (OnProgress info :: t)) with (progress info :: percents t).
  specialize (IH (onProgress info st)). destruct IH as [IHp IHs].
  rewrite IHp, IHs. cbn [existsb]. unfold onProgress. split.
  - destruct (percents t) as [|p ps] eqn:E.
    + cbn [last]. destruct (progress info >=? 40); reflexivity.
    + change (last (progress info :: p :: ps)
                (uploadProgress st)) with (last (p :: ps) (uploadProgress st)).
      clear. revert p. induction ps as [|q ps IH]; intros p;
        [reflexivity|].
      change (last (p :: q :: ps) ?d) with (last (q :: ps) d). apply IH.
  - destruct (progress info >=? 40); cbn [orb];
      destruct (existsb (fun p => p >=? 40) (percents t)); reflexivity.
Qed.

(** ** The registry and the history dialog *)

Import Registry.

Lemma handleDeleteFile_accepted (json : thrown + unit) (fileName : string)
    (st : State) (h : History) :
  handleDeleteFile (Responded true json) fileName (st, h)
  = ([DeleteFiles fileName],
     (if isActive st fileName
      then setUploadStatus IDLE
             (setOriginalFileName (Some "") (setUploadedFileName None st))
      else st,
      setHistoryFiles
        (filter (fun f => negb (UploadedFile.name f =? fileName)%string)
           (historyFiles h)) h)).
Proof.
  unfold handleDeleteFile, deleteFile.
  destruct (isActive st fileName); reflexivity.
Qed.


(** A delete that fails, by a dropped request or by a status outside 2xx,
    changes nothing: the list, the renaming in progress and the
    coordinator are as before, and the error is only logged. *)
Theorem failed_delete_changes_nothing (fileName : string)
    (p : State * History) :
  (forall e,
     handleDeleteFile (Rejected e) fileName p
     = ([DeleteFiles fileName; LogError "Failed to delete file:" e], p)) /\
  (forall json,
     handleDeleteFile (Responded false json) fileName p
     = ([DeleteFiles fileName;
         LogError "Failed to delete file:" (Error "Failed to delete file")],
        p)).
Proof.
  destruct p as [st h]. split; intros; reflexivity.
Qed.

(** A rename that the backend accepts keeps the entries of the list, their
    order and their names; the entries of the renamed file show the
    trimmed new name and all others are untouched; the name shown for the
    active asset changes exactly when the renamed file is the active one;
    and the renaming is over. *)
Theorem rename_updates_names (trim : string -> string) (body : Renamed)
    (fileName : string) (st : State) (h : History) :
  trim (editingDisplayName h) <> "" ->
  let newName := trim (editingDisplayName h) in
  let r := handleSaveRename trim (Responded true (inr body)) fileName
             (st, h) in
  let st' := fst (snd r) in
  let h' := snd (snd r) in
  fst r = [PatchFiles fileName newName] /\
  map UploadedFile.name (historyFiles h')
  = map UploadedFile.name (historyFiles h) /\
  (forall f, In f (historyFiles h') ->
     if (UploadedFile.name f =? fileName)%string
     then UploadedFile.display_name f = Some newName
     else In f (historyFiles h)) /\
  originalFileName st'
  = (if isActive st fileName then Some newName else originalFileName st) /\
  uploadedFileName st' = uploadedFileName st /\
  uploadStatus st' = uploadStatus st /\
  editingFileName h' = None /\ editingDisplayName h' = "".
Proof.
  intros Hne. cbv zeta. unfold handleSaveRename, renameFile.
  apply String.eqb_neq in Hne. rewrite Hne. cbn [fst snd].
  repeat split.
  - cbn [handleCancelRename setEditingDisplayName setEditingFileName
         setHistoryFiles historyFiles].
    rewrite map_map. apply map_ext. intros f.
    destruct (UploadedFile.name f =? fileName)%string; reflexivity.
  - cbn [handleCancelRename setEditingDisplayName setEditingFileName
         setHistoryFiles historyFiles].
    intros f Hin. apply in_map_iff in Hin. destruct Hin as (g & Hg & Hin).
    destruct (UploadedFile.name g =? fileName)%string eqn:Eg; subst f.
    + cbn [UploadedFile.withDisplayName UploadedFile.name]. rewrite Eg.
      reflexivity.
    + rewrite Eg. exact Hin.
  - destruct (isActive st fileName); reflexivity.
  - destruct (isActive st fileName); reflexivity.
  - destruct (isActive st fileName); reflexivity.
Qed.

Lemma rename_updates_names_witness :
  let f := {| UploadedFile.name := "files/abc";
              UploadedFile.display_name := Some "clip.mp4";
              UploadedFile.mime_type := None;
              UploadedFile.size_bytes := None;
              UploadedFile.state := None;
              UploadedFile.create_time := None;
              UploadedFile.expiration_time := None |} in
  let h := {| historyFiles := [f]; isLoadingHistory := false;
              editingFileName := Some "files/abc";
              editingDisplayName := "talk.mp4" |} in
  map UploadedFile.display_name
    (historyFiles (snd (snd (handleSaveRename (fun s => s)
       (Responded true (inr
          {| renamed_status := None; renamed_name := None;
             renamed_display_name := None; renamed_detail := None |}))
       "files/abc" (mounted "", h)))))
  = [Some "talk.mp4"].
Proof.
  cbv zeta.
  pose proof (rename_updates_names (fun s => s)
    {| renamed_status := None; renamed_name := None;
       renamed_display_name := None; renamed_detail := None |}
    "files/abc" (mounted "")
    {| historyFiles :=
         [{| UploadedFile.name := "files/abc";
             UploadedFile.display_name := Some "clip.mp4";
             UploadedFile.mime_type := None;
             UploadedFile.size_bytes := None;
             UploadedFile.state := None;
             UploadedFile.create_time := None;
             UploadedFile.expiration_time := None |}];
       isLoadingHistory := false;
       editingFileName := Some "files/abc";
       editingDisplayName := "talk.mp4" |}) as H.
  cbv zeta in H. destruct H as (_ & _ & _ & _); [discriminate|].
  reflexivity.
Defined.

(** A rename to a name that is blank after trimming sends no request and
    only ends the renaming; a rename that the backend refuses changes
    neither the list nor the coordinator and keeps the renaming open with
    the text typed, after an alert that carries the [detail] of the
    refusal (['Failed to rename file'] when there is none). *)
Theorem rename_blank_or_refused (trim : string -> string)
    (fileName : string) (st : State) (h : History) :
  (trim (editingDisplayName h) = "" ->
   forall http,
     handleSaveRename trim http fileName (st, h)
     = ([], (st, handleCancelRename h))) /\
  (trim (editingDisplayName h) <> "" ->
   forall json,
     let message :=
       orElse (match json with
               | inr body => renamed_detail body
               | inl _ => None
               end) "Failed to rename file" in
     handleSaveRename trim (Responded false json) fileName (st, h)
     = ([PatchFiles fileName (trim (editingDisplayName h));
         LogError "Failed to rename file:" (Error message);
         Alert ("Failed to rename file: " ++ message)%string],
        (st, h))).
Proof.
  split.
  - intros Hblank http. unfold handleSaveRename. rewrite Hblank.
    reflexivity.
  - intros Hne json. cbv zeta. unfold handleSaveRename, renameFile.
    apply String.eqb_neq in Hne. rewrite Hne.
    destruct json as [e|body]; reflexivity.
Qed.

Lemma rename_blank_or_refused_witness :
  let h := {| historyFiles := []; isLoadingHistory := false;
              editingFileName := Some "files/abc";
              editingDisplayName := "" |} in
  let h' := {| historyFiles := []; isLoadingHistory := false;
               editingFileName := Some "files/abc";
               editingDisplayName := "talk.mp4" |} in
  fst (handleSaveRename (fun s => s) (Rejected NonError) "files/abc"
         (mounted "", h)) = [] /\
  snd (handleSaveRename (fun s => s)
         (Responded false (inr
            {| renamed_status := None; renamed_name := None;
               renamed_display_name := None;
               renamed_detail := Some "File not found" |}))
         "files/abc" (mounted "", h'))
  = (mounted "", h').
Proof.
  cbv zeta. split.
  - rewrite (proj1 (rename_blank_or_refused (fun s => s) "files/abc"
               (mounted "")
               {| historyFiles := []; isLoadingHistory := false;
                  editingFileName := Some "files/abc";
                  editingDisplayName := "" |}) eq_refl).
    reflexivity.
  - rewrite (proj2 (rename_blank_or_refused (fun s => s) "files/abc"
               (mounted "")
               {| historyFiles := []; isLoadingHistory := false;
                  editingFileName := Some "files/abc";
                  editingDisplayName := "talk.mp4" |})).
    + reflexivity.
    + discriminate.
Defined.

(** However the listing ends, [loadHistory] leaves the loading flag off
    and the renaming in progress alone; a listing that fails keeps the
    list that was shown, and a listing that succeeds shows what the
    backend listed, nothing when its answer has no [files]. *)
Theorem loadHistory_settles
    (http : Fetched (option (list UploadedFile.t))) (h : History) :
  let h' := snd (loadHistory http h) in
  isLoadingHistory h' = false /\
  editingFileName h' = editingFileName h /\
  editingDisplayName h' = editingDisplayName h /\
  historyFiles h'
  = match http with
    | Responded true (inr (Some files)) => files
    | Responded true (inr None) => []
    | _ => historyFiles h
    end.
Proof.
  cbv zeta. unfold loadHistory, listFiles.
  destruct http as [e|[|] [e|[files|]]]; repeat split.
Qed.

(** Selecting a row and then deleting that file ends with no active
    asset: the coordinator is in [IDLE] and the file is off the list. *)
Theorem select_then_delete (json : thrown + unit) (f : UploadedFile.t)
    (st : State) (h : History) :
  editingFileName h <> Some (UploadedFile.name f) ->
  let r := handleDeleteFile (Responded true json) (UploadedFile.name f)
             (clickRow f (st, h)) in
  uploadStatus (fst (snd r)) = IDLE /\
  uploadedFileName (fst (snd r)) = None /\
  ~ In f (historyFiles (snd (snd r))).
Proof.
  intros Hedit. cbv zeta.
  assert (Hclick : clickRow f (st, h)
                   = (handleSelectFromHistory (UploadedFile.name f)
                        (Some (orElse (UploadedFile.display_name f)
                                 (UploadedFile.name f))) st, h)).
  { unfold clickRow. destruct (editingFileName h) as [n|]; [|reflexivity].
    destruct (String.eqb_spec n (UploadedFile.name f)) as [->|_];
      [contradiction|reflexivity]. }
  rewrite Hclick, handleDeleteFile_accepted.
  assert (Ha : isActive
                 (handleSelectFromHistory (UploadedFile.name f)
                    (Some (orElse (UploadedFile.display_name f)
                             (UploadedFile.name f))) st)
                 (UploadedFile.name f) = true).
  { unfold isActive. cbn. apply String.eqb_refl. }
  rewrite Ha. cbn [fst snd]. repeat split.
  cbn [setHistoryFiles historyFiles]. intros Hf.
  apply filter_In in Hf. destruct Hf as [_ Hf].
  rewrite String.eqb_refl in Hf. discriminate.
Qed.

Lemma select_then_delete_witness :
  let f := {| UploadedFile.name := "files/abc";
              UploadedFile.display_name := Some "clip.mp4";
              UploadedFile.mime_type := None;
              UploadedFile.size_bytes := None;
              UploadedFile.state := None;
              UploadedFile.create_time := None;
              UploadedFile.expiration_time := None |} in
  let h := {| historyFiles := [f]; isLoadingHistory := false;
              editingFileName := None; editingDisplayName := "" |} in
  uploadStatus
    (fst (snd (handleDeleteFile (Responded true (inr tt)) "files/abc"
                 (clickRow f (mounted "", h))))) = IDLE.
Proof.
  cbv zeta.
  refine (proj1 (select_then_delete (inr tt)
    {| UploadedFile.name := "files/abc";
       UploadedFile.display_name := Some "clip.mp4";
       UploadedFile.mime_type := None;
       UploadedFile.size_bytes := None;
       UploadedFile.state := None;
       UploadedFile.create_time := None;
       UploadedFile.expiration_time := None |}
    (mounted "") _ _)).
  discriminate.
Defined.

(** ** The analysis of the active asset *)

Import Analysis.

Lemma exchanges_app (l : list QAHistoryItem) (q a : string) :
  exchanges l ->
  exchanges (l ++ [{| role := user; text := q |};
                   {| role := model; text := a |}]).
Proof.
  assert (H : forall n l, (List.length l <= n)%nat -> exchanges l ->
              exchanges (l ++ [{| role := user; text := q |};
                               {| role := model; text := a |}])).
  { clear l. induction n as [|n IH]; intros l Hlen Hl.
    - destruct l; [cbn; auto|cbn in Hlen; lia].
    - destruct l as [|x [|y l]]; [cbn; auto|destruct Hl|].
      destruct Hl as (Hx & Hy & Hl). cbn [app].
      change (role x = user /\ role y = model /\
              exchanges (l ++ [{| role := user; text := q |};
                               {| role := model; text := a |}])).
      repeat split; try assumption. apply IH; [cbn in Hlen; lia|exact Hl]. }
  apply (H (List.length l)). lia.
Qed.

Lemma exchanges_even (l : list QAHistoryItem) :
  exchanges l -> exists n, List.length l = (2 * n)%nat.
Proof.
  assert (H : forall n l, (List.length l <= n)%nat -> exchanges l ->
              exists k, List.length l = (2 * k)%nat).
  { clear l. induction n as [|n IH]; intros l Hlen Hl.
    - destruct l; [exists O; reflexivity|cbn in Hlen; lia].
    - destruct l as [|x [|y l]]; [exists O; reflexivity|destruct Hl|].
      destruct Hl as (_ & _ & Hl).
      destruct (IH l) as [k Hk]; [cbn in Hlen; lia|exact Hl|].
      exists (S k). cbn [List.length]. lia. }
  apply (H (List.length l)). lia.
Qed.

(** A question that is answered adds exactly one exchange to the end of
    the history, the trimmed question of the user and the answer of the
    model; the request carried the history as it was before, the answer
    is shown, and the question field is emptied. *)
Theorem ask_appends_exchange (trim : string -> string) (thrownText : string)
    (uploaded result : string) (st : State) (d : Desk) :
  uploadedFileName st = Some uploaded -> uploaded <> "" ->
  trim (question d) <> "" ->
  let r := handleAskQuestion trim thrownText (Returned result) (st, d) in
  let st' := fst (snd r) in
  let d' := snd (snd r) in
  fst r = [FetchQA uploaded (trim (question d)) (language d) (qaHistory st)]
  /\
  qaHistory st'
  = qaHistory st ++ [{| role := user; text := trim (question d) |};
                     {| role := model; text := result |}] /\
  qaResult st' = result /\
  question d' = "" /\ isAsking d' = false /\
  summaryResult st' = summaryResult st /\
  uploadedFileName st' = uploadedFileName st.
Proof.
  intros Hup Hne Hq. cbv zeta. unfold handleAskQuestion.
  apply String.eqb_neq in Hne, Hq. rewrite Hup, Hne, Hq.
  cbn [orb fst snd]. repeat split. exact Hup.
Qed.

Lemma ask_appends_exchange_witness :
  let st := handleSelectFromHistory "files/abc" None (mounted "") in
  let d := {| language := zh; summaryMode := points;
              isGeneratingSummary := false; question := "Who speaks?";
              isAsking := false |} in
  qaHistory (fst (snd (handleAskQuestion (fun s => s) "" (Returned "A host.")
                         (st, d))))
  = [{| role := user; text := "Who speaks?" |};
     {| role := model; text := "A host." |}].
Proof.
  cbv zeta.
  refine (proj1 (proj2 (ask_appends_exchange (fun s => s) "" "files/abc"
    "A host." (handleSelectFromHistory "files/abc" None (mounted ""))
    {| language := zh; summaryMode := points;
       isGeneratingSummary := false; question := "Who speaks?";
       isAsking := false |} _ _ _))).
  - reflexivity.
  - discriminate.
  - discriminate.
Defined.

(** A question that fails leaves the history and the question field as
    they were and shows the error after the prefix ['**Error:** ']; and
    without an active asset, or with a question that is blank after
    trimming, [handleAskQuestion] sends nothing and changes nothing. *)
Theorem ask_failure_or_nothing (trim : string -> string)
    (thrownText : string) (st : State) (d : Desk) :
  (forall uploaded e,
     uploadedFileName st = Some uploaded -> uploaded <> "" ->
     trim (question d) <> "" ->
     let r := handleAskQuestion trim thrownText (Threw e) (st, d) in
     fst r
     = [FetchQA uploaded (trim (question d)) (language d) (qaHistory st)] /\
     qaHistory (fst (snd r)) = qaHistory st /\
     qaResult (fst (snd r))
     = ("**Error:** " ++ match e with
                         | Error m => m
                         | NonError => thrownText
                         end)%string /\
     question (snd (snd r)) = question d /\
     isAsking (snd (snd r)) = false) /\
  (truthy (uploadedFileName st) = false \/ trim (question d) = "" ->
   forall answer,
     handleAskQuestion trim thrownText answer (st, d) = ([], (st, d))).
Proof.
  split.
  - intros uploaded e Hup Hne Hq. cbv zeta. unfold handleAskQuestion.
    apply String.eqb_neq in Hne, Hq. rewrite Hup, Hne, Hq.
    cbn [orb fst snd]. repeat split. destruct e; reflexivity.
  - intros H answer. unfold handleAskQuestion, truthy in *.
    destruct (uploadedFileName st) as [u|]; [|reflexivity].
    destruct H as [H|H].
    + apply negb_false_iff in H. rewrite H. reflexivity.
    + rewrite H. cbn. rewrite orb_true_r. reflexivity.
Qed.

Lemma ask_failure_or_nothing_witness :
  let st := handleSelectFromHistory "files/abc" None (mounted "") in
  let d := {| language := zh; summaryMode := points;
              isGeneratingSummary := false; question := "Who speaks?";
              isAsking := false |} in
  qaResult (fst (snd (handleAskQuestion (fun s => s) ""
                        (Threw (Error "Failed to fetch answer")) (st, d))))
  = "**Error:** Failed to fetch answer" /\
  handleAskQuestion (fun s => s) "" (Returned "A host.") (mounted "", d)
  = ([], (mounted "", d)).
Proof.
  cbv zeta. split.
  - refine (proj1 (proj2 (proj2 (proj1 (ask_failure_or_nothing (fun s => s) ""
      (handleSelectFromHistory "files/abc" None (mounted ""))
      {| language := zh; summaryMode := points;
         isGeneratingSummary := false; question := "Who speaks?";
         isAsking := false |}) "files/abc" (Error "Failed to fetch answer")
      _ _ _)))).
    + reflexivity.
    + discriminate.
    + discriminate.
  - apply (proj2 (ask_failure_or_nothing (fun s => s) "" (mounted "")
      {| language := zh; summaryMode := points;
         isGeneratingSummary := false; question := "Who speaks?";
         isAsking := false |})).
    left. reflexivity.
Defined.

(** The history only ever holds whole exchanges, a question of the user
    followed by the answer of the model: asking keeps it so whether the
    question is answered or fails, generating a summary does not touch
    it, and clearing, a new attempt and a selection from the list empty
    it; its length is therefore twice the number of exchanges, the number
    that the dashboard shows. *)
Theorem history_stays_exchanges (trim : string -> string)
    (thrownText : string) (st : State) (d : Desk) :
  exchanges (qaHistory st) ->
  (forall answer,
     exchanges (qaHistory (fst (snd (handleAskQuestion trim thrownText
                                       answer (st, d)))))) /\
  (forall answer,
     qaHistory (fst (snd (handleGenerateSummary thrownText answer (st, d))))
     = qaHistory st) /\
  qaHistory (fst (handleClearQAHistory (st, d))) = [] /\
  (forall w, qaHistory (snd (handleIngest w st)) = []) /\
  (forall fileName displayName,
     qaHistory (handleSelectFromHistory fileName displayName st) = []) /\
  (exists n, List.length (qaHistory st) = (2 * n)%nat).
Proof.
  intros Hex. repeat split.
  - intros answer. unfold handleAskQuestion.
    destruct (uploadedFileName st) as [u|]; [|exact Hex].
    destruct ((u =? "")%string || (trim (question d) =? "")%string);
      [exact Hex|].
    destruct answer as [result|e]; cbn [fst snd]; [|exact Hex].
    cbn [qaHistory setQaResult setQaHistory]. apply exchanges_app. exact Hex.
  - intros answer. unfold handleGenerateSummary.
    destruct (uploadedFileName st) as [u|]; [|reflexivity].
    destruct (u =? "")%string; [reflexivity|].
    destruct answer; reflexivity.
  - intros w. destruct (channelRun w st) as [[t c]|] eqn:Hrun.
    + rewrite (handleIngest_begun w st t c Hrun). cbn [snd].
      destruct (deliver_keeps t (begun st))
        as (_ & _ & _ & _ & _ & _ & _ & _ & Hh & _).
      destruct c; cbn [settle snd qaHistory setUploadMessage
        setUploadProgress setUploadStatus setOriginalFileName
        setUploadedFileName setErrorMessage]; rewrite Hh;
        unfold begun, cleared; destruct (activeTab st); reflexivity.
    + rewrite (handleIngest_idle w st Hrun). reflexivity.
  - apply exchanges_even. exact Hex.
Qed.

Lemma history_stays_exchanges_witness :
  let st := handleSelectFromHistory "files/abc" None (mounted "") in
  let d := {| language := zh; summaryMode := points;
              isGeneratingSummary := false; question := "Who speaks?";
              isAsking := false |} in
  exchanges (qaHistory (fst (snd (handleAskQuestion (fun s => s) ""
                                    (Returned "A host.") (st, d))))).
Proof.
  cbv zeta.
  apply (proj1 (history_stays_exchanges (fun s => s) ""
    (handleSelectFromHistory "files/abc" None (mounted ""))
    {| language := zh; summaryMode := points;
       isGeneratingSummary := false; question := "Who speaks?";
       isAsking := false |} I)).
Defined.

(** With an active asset [handleGenerateSummary] asks once for a summary
    of that asset in the chosen mode and language, shows the summary, or
    the error after the prefix ['**Error:** '], and always ends with the
    busy flag off; the answer and the history of the questions stay as
    they were.  Without an active asset it sends nothing and changes
    nothing. *)
Theorem summary_settles (thrownText : string) (st : State) (d : Desk) :
  (forall uploaded answer,
     uploadedFileName st = Some uploaded -> uploaded <> "" ->
     let r := handleGenerateSummary thrownText answer (st, d) in
     fst r = [FetchSummary uploaded (summaryMode d) (language d)] /\
     summaryResult (fst (snd r))
     = match answer with
       | Returned result => result
       | Threw (Error m) => ("**Error:** " ++ m)%string
       | Threw NonError => ("**Error:** " ++ thrownText)%string
       end /\
     isGeneratingSummary (snd (snd r)) = false /\
     qaResult (fst (snd r)) = qaResult st /\
     qaHistory (fst (snd r)) = qaHistory st /\
     uploadStatus (fst (snd r)) = uploadStatus st) /\
  (truthy (uploadedFileName st) = false ->
   forall answer,
     handleGenerateSummary thrownText answer (st, d) = ([], (st, d))).
Proof.
  split.
  - intros uploaded answer Hup Hne. cbv zeta. unfold handleGenerateSummary.
    apply String.eqb_neq in Hne. rewrite Hup, Hne.
    destruct answer as [result|[m|]]; repeat split.
  - intros H answer. unfold handleGenerateSummary, truthy in *.
    destruct (uploadedFileName st) as [u|]; [|reflexivity].
    apply negb_false_iff in H. rewrite H. reflexivity.
Qed.

Lemma summary_settles_witness :
  let st := handleSelectFromHistory "files/abc" None (mounted "") in
  let d := {| language := zh; summaryMode := outline;
              isGeneratingSummary := false; question := "";
              isAsking := false |} in
  handleGenerateSummary "" (Threw (Error "Failed to fetch summary")) (st, d)
  = ([FetchSummary "files/abc" outline zh],
     (setSummaryResult "**Error:** Failed to fetch summary" st, d)) /\
  handleGenerateSummary "" (Returned "text") (mounted "", d)
  = ([], (mounted "", d)).
Proof.
  cbv zeta. split.
  - pose proof (proj1 (summary_settles ""
      (handleSelectFromHistory "files/abc" None (mounted ""))
      {| language := zh; summaryMode := outline;
         isGeneratingSummary := false; question := "";
         isAsking := false |}) "files/abc"
      (Threw (Error "Failed to fetch summary")) eq_refl) as H.
    cbv zeta in H. destruct H as (_ & _); [discriminate|]. reflexivity.
  - apply (proj2 (summary_settles "" (mounted "")
      {| language := zh; summaryMode := outline;
         isGeneratingSummary := false; question := "";
         isAsking := false |})).
    reflexivity.
Defined.

(** While the button that asks is enabled a click on it sends exactly one
    question, and while the button that generates is enabled a click on
    it sends exactly one request for a summary; both end with their busy
    flag off. *)
Theorem enabled_analysis_buttons_send (trim : string -> string)
    (thrownText : string) (st : State) (d : Desk) :
  (askDisabled trim (st, d) = false ->
   forall answer,
     let r := handleAskQuestion trim thrownText answer (st, d) in
     isAsking (snd (snd r)) = false /\
     exists uploaded,
       uploadedFileName st = Some uploaded /\
       fst r = [FetchQA uploaded (trim (question d)) (language d)
                  (qaHistory st)]) /\
  (generateDisabled (st, d) = false ->
   forall answer,
     let r := handleGenerateSummary thrownText answer (st, d) in
     isGeneratingSummary (snd (snd r)) = false /\
     exists uploaded,
       uploadedFileName st = Some uploaded /\
       fst r = [FetchSummary uploaded (summaryMode d) (language d)]).
Proof.
  split.
  - unfold askDisabled, truthy. intros H answer. cbv zeta.
    apply orb_false_elim in H. destruct H as [H Hup].
    apply orb_false_elim in H. destruct H as [Hbusy Hq].
    unfold handleAskQuestion.
    destruct (uploadedFileName st) as [u|]; [|discriminate].
    apply negb_false_iff in Hup. apply negb_true_iff in Hup.
    rewrite Hup, Hq. cbn [orb].
    destruct answer; cbn [fst snd]; (split; [reflexivity|]);
      exists u; split; reflexivity.
  - unfold generateDisabled, truthy. intros H answer. cbv zeta.
    apply orb_false_elim in H. destruct H as [Hbusy Hup].
    unfold handleGenerateSummary.
    destruct (uploadedFileName st) as [u|]; [|discriminate].
    apply negb_false_iff in Hup. apply negb_true_iff in Hup.
    rewrite Hup.
    destruct answer; cbn [fst snd]; (split; [reflexivity|]);
      exists u; split; reflexivity.
Qed.

Lemma enabled_analysis_buttons_send_witness :
  let st := handleSelectFromHistory "files/abc" None (mounted "") in
  let d := {| language := en; summaryMode := long;
              isGeneratingSummary := false; question := "Why?";
              isAsking := false |} in
  isAsking (snd (snd (handleAskQuestion (fun s => s) "" (Returned "So.")
                        (st, d)))) = false /\
  isGeneratingSummary
    (snd (snd (handleGenerateSummary "" (Returned "Text") (st, d)))) = false.
Proof.
  cbv zeta. split.
  - refine (proj1 (proj1 (enabled_analysis_buttons_send (fun s => s) ""
      (handleSelectFromHistory "files/abc" None (mounted ""))
      {| language := en; summaryMode := long;
         isGeneratingSummary := false; question := "Why?";
         isAsking := false |}) _ (Returned "So."))).
    reflexivity.
  - refine (proj1 (proj2 (enabled_analysis_buttons_send (fun s => s) ""
      (handleSelectFromHistory "files/abc" None (mounted ""))
      {| language := en; summaryMode := long;
         isGeneratingSummary := false; question := "Why?";
         isAsking := false |}) _ (Returned "Text"))).
    reflexivity.
Defined.

(** ** More on the channels *)

(** Whatever the clock reads, the time of the retained sample never moves
    backwards during an upload: a sample is retained only when it comes
    at least 100ms after the retained one. *)
Theorem retained_time_never_decreases (b : bool)
    (evs : list XhrProgressEvent) (v : UploadVars) :
  lastTime v <= lastTime (snd (fst (forEach evs (onprogress b) v))).
Proof.
  revert v. induction evs as [|e evs IH]; intros v; [cbn; lia|].
  cbn [forEach]. unfold bind at 1. rewrite onprogress_run.
  destruct (lengthComputable e && b).
  - specialize (IH (meter e v)).
    destruct (forEach evs (onprogress b) (meter e v)) as [[t2 v2] c2].
    cbn [fst snd] in *.
    assert (Hm : lastTime v <= lastTime (meter e v)).
    { unfold meter. rewrite timeDiff_threshold.
      destruct (Z.leb_spec 100 (now e - lastTime v)); cbn [lastTime]; lia. }
    lia.
  - specialize (IH v).
    destruct (forEach evs (onprogress b) v) as [[t2 v2] c2].
    cbn [fst snd] in *. exact IH.
Qed.

Lemma iteration_polls_result (server : nat -> PollOutcome) (v : PollVars) :
  polledIds (fst (fst (iteration server v))) = [idOf (result v)] /\
  match iteration server v with
  | (_, v1, Returned Continue) => result v1 = result v
  | _ => True
  end.
Proof.
  unfold iteration.
  destruct (server (attempts v)) as [e|[|] [e|d]];
    try (destruct (otherError e); split; reflexivity);
    try (split; reflexivity).
  destruct (completes d); [|destruct (stageIs d "error")];
    destruct (pd_progress d >? lastProgress v); split; reflexivity.
Qed.

Lemma polledIds_app (t1 t2 : list Effect) :
  polledIds (t1 ++ t2) = polledIds t1 ++ polledIds t2.
Proof.
  induction t1 as [|e t1 IH]; simpl; [reflexivity|].
  destruct e; simpl; rewrite IH; reflexivity.
Qed.

Lemma pollLoop_polls_one_job (server : nat -> PollOutcome) (n : nat) :
  forall v,
    Forall (eq (idOf (result v)))
      (polledIds (fst (fst (pollLoop server n v)))).
Proof.
  induction n as [|n IH]; intros v; [constructor|].
  rewrite pollLoop_S.
  pose proof (iteration_polls_result server v) as [Hid Hres].
  destruct (iteration server v) as [[t1 v1] [[|]|e]]; cbn [fst] in *;
    try (rewrite Hid; repeat constructor).
  specialize (IH (incr_attempts v1)).
  destruct (pollLoop server n (incr_attempts v1)) as [[t2 v2] c].
  cbn [fst incr_attempts result] in *.
  rewrite polledIds_app, Hid. cbn [app polledIds].
  constructor; [reflexivity|]. rewrite <- Hres. exact IH.
Qed.

(** Every poll of a call asks for the job whose handle the initiate
    response carried, whatever the poll responses contain. *)
Theorem polls_ask_for_the_started_job (url : string) (b : bool)
    (r : IngestResponse) (server : nat -> PollOutcome) :
  Forall (eq (idOf r))
    (polledIds (fst (ingestUrl url b (InitResponse true (inr r)) server))).
Proof.
  unfold ingestUrl.
  destruct (truthy (upload_id r) && b) eqn:Eb.
  2:{ rewrite ingestUrlWithin_direct by exact Eb.
      destruct b; constructor. }
  apply andb_prop in Eb. destruct Eb as [Eid ->].
  rewrite ingestUrlWithin_polling by exact Eid.
  pose proof (pollLoop_polls_one_job server maxAttempts (pollStart r)) as H.
  destruct (pollLoop server maxAttempts (pollStart r)) as [[t v] c].
  cbn [fst pollStart result] in H.
  destruct c as [[]|e]; [destruct (maxAttempts <=? attempts v)%nat|];
    cbn [fst polledIds]; rewrite ?polledIds_app, ?app_nil_r;
    exact H.
Qed.
